(** * Gap-filling synchronisation of the station cache (data.py)

    A shallow embedding of [create_dataframe_from_api_data] and
    [update_and_save_station_data] from [data.py], and the properties of
    the written cache file that follow from it.

    Modelling conventions.
    - An instant is a [Z], in seconds; one hour is [3600].
    - A pandas frame is the list of its rows in positional order, each
      row paired with its index label.  A row carries [entityId],
      [time_utc] and the cells of its attribute columns by column name;
      a column a row does not carry reads as NaN after [pd.concat].
    - The CSV file is the list of the rows it holds ([None]: the path
      does not exist); [read_csv] numbers the rows from 0 and
      [to_csv(index=False)] forgets the labels.
    - The remote service is a function from the request to what
      [fetch_station_data] does with the answer: raise, return [None],
      or return the decoded JSON object.
    - A Python [str] is a [string] whose characters are its code points,
      all below 256; among these the decimal digits, for the pattern
      and for [int], are '0' to '9'.
    - A Python exception is a value of [exn]; code that can raise
      returns a [result].  The exceptions modelled are those of the
      load of the cache, of the parser and of the cast in the merge; a
      cache file that pandas cannot read, or a body that is not a JSON
      object of the expected types, is outside the model.
    - [START_DATE] and [END_DATE] are aware of their time zone, as the
      script's are, and so are the instants of the file and of the
      answers.
    - [sort_values] is a stable sort, as the multi-column sort of pandas
      is; only the order of rows with equal keys depends on it.
    - Messages printed to the console are left out. *)

From Stdlib Require Import String Ascii ZArith List Bool Lia.
From Stdlib Require Import Permutation Sorted.
Import ListNotations.

Local Open Scope Z_scope.
Local Open Scope list_scope.

(** ** Exceptions *)

Inductive exn : Type :=
| ValueError
| KeyError
| OverflowError
| TypeError
| RequestException.

Inductive result (A : Type) : Type :=
| Ok (a : A)
| Raise (e : exn).

Arguments Ok {A} a.
Arguments Raise {A} e.

Definition bind {A B : Type} (m : result A) (k : A -> result B) : result B :=
  match m with
  | Ok a => k a
  | Raise e => Raise e
  end.

Notation "x <- m ;; k" := (bind m (fun x => k))
  (at level 61, m at next level, right associativity).

Fixpoint mapM {A B : Type} (f : A -> result B) (l : list A) : result (list B) :=
  match l with
  | [] => Ok []
  | a :: l' => b <- f a ;; bs <- mapM f l' ;; Ok (b :: bs)
  end.

(** ** The regular expression [KielRegion:(\d+)] *)

(** The class of decimal digits on the characters below 256: '0' to
    '9'. *)

Definition is_digit (c : ascii) : bool :=
  let n := Z.of_nat (nat_of_ascii c) in (48 <=? n) && (n <=? 57).

Fixpoint take_digits (s : string) : string :=
  match s with
  | EmptyString => EmptyString
  | String c r => if is_digit c then String c (take_digits r) else EmptyString
  end.

Fixpoint strip_prefix (p s : string) : option string :=
  match p with
  | EmptyString => Some s
  | String a p' =>
      match s with
      | EmptyString => None
      | String b s' => if Ascii.eqb a b then strip_prefix p' s' else None
      end
  end.

(** The match of the pattern anchored at the head of [s]: the greedy,
    non-empty run of digits after the literal. *)
Definition match_here (s : string) : option string :=
  match strip_prefix "KielRegion:" s with
  | Some r =>
      match take_digits r with
      | EmptyString => None
      | d => Some d
      end
  | None => None
  end.

(** [re.search]: the leftmost position at which the pattern matches;
    the result is group 1. *)
Fixpoint re_search (s : string) : option string :=
  match match_here s with
  | Some d => Some d
  | None =>
      match s with
      | EmptyString => None
      | String _ r => re_search r
      end
  end.

(** ** [int] of a string of digits, and the cast to int64 *)

Definition digit_val (c : ascii) : Z := Z.of_nat (nat_of_ascii c) - 48.

Fixpoint digits_acc (acc : Z) (s : string) : Z :=
  match s with
  | EmptyString => acc
  | String c r => digits_acc (10 * acc + digit_val c) r
  end.

Fixpoint all_digits (s : string) : bool :=
  match s with
  | EmptyString => true
  | String c r => is_digit c && all_digits r
  end.

Definition int64_max : Z := 9223372036854775807.

(** The longest string of digits that [int] converts
    ([sys.int_max_str_digits]). *)
Definition int_max_str_digits : nat := 4300.

(** A cell of the object column [entityId] of a freshly parsed frame:
    a string, or NaN ([None]). [astype('int64')] on such a cell: [int]
    of the string, which raises a [ValueError] on the empty string and
    on more than 4300 digits, then the conversion to int64. *)
Definition astype_int64 (c : option string) : result Z :=
  match c with
  | None => Raise ValueError
  | Some EmptyString => Raise ValueError
  | Some s =>
      if all_digits s then
        if Nat.ltb int_max_str_digits (String.length s) then Raise ValueError
        else
          let n := digits_acc 0 s in
          if n <=? int64_max then Ok n else Raise OverflowError
      else Raise ValueError
  end.

Section Synchronizer.

(** The type of an attribute cell (the hourly average); the routine
    never computes on it. *)
Variable value : Type.

(** ** Rows and frames *)

Record Row (I : Type) : Type := mkRow {
  entityId : I;
  time_utc : Z;
  cells : list (string * value)
}.

Arguments mkRow {I} _ _ _.
Arguments entityId {I} _.
Arguments time_utc {I} _.
Arguments cells {I} _.

(** A frame: rows in positional order, each with its index label. *)
Definition DataFrame (I : Type) : Type := list (nat * Row I).

Definition labelled {I : Type} (rows : list (Row I)) : DataFrame I :=
  combine (seq 0 (length rows)) rows.

(** ** The JSON object of a response *)

Record Attribute : Type := mkAttribute {
  attrName : option string;
  values : option (list value)
}.

Record ApiData : Type := mkApiData {
  d_index : option (list Z);
  d_entityId : option string;
  d_attributes : option (list Attribute);
  d_other : list string
}.

(** Truth value of the dict in [if data:]. *)
Definition truthy (d : ApiData) : bool :=
  match d_index d, d_entityId d, d_attributes d, d_other d with
  | None, None, None, [] => false
  | _, _, _, _ => true
  end.

(** ** [create_dataframe_from_api_data] *)

(** Assignment [d[k] = v] on an insertion-ordered dict. *)
Fixpoint dict_set (d : list (string * list value)) (k : string) (v : list value)
  : list (string * list value) :=
  match d with
  | [] => [(k, v)]
  | (k', v') :: d' =>
      if String.eqb k' k then (k', v) :: d' else (k', v') :: dict_set d' k v
  end.

(** The dict comprehension [{attr['attrName']: attr.get('values', [])}]. *)
Fixpoint attribute_dict (acc : list (string * list value)) (attrs : list Attribute)
  : result (list (string * list value)) :=
  match attrs with
  | [] => Ok acc
  | a :: attrs' =>
      match attrName a with
      | None => Raise KeyError
      | Some name =>
          let vs := match values a with Some vs => vs | None => [] end in
          attribute_dict (dict_set acc name vs) attrs'
      end
  end.

(** [pd.DataFrame(dict)]: the number of rows, when all columns have one
    length; no column gives the empty frame. *)
Definition frame_length (d : list (string * list value)) : result nat :=
  match d with
  | [] => Ok 0%nat
  | (_, vs) :: d' =>
      if forallb (fun kv => Nat.eqb (length (snd kv)) (length vs)) d'
      then Ok (length vs) else Raise ValueError
  end.

(** The columns that lines 162-163 assign: an attribute of one of these
    names loses its values to the assignment. *)
Definition overwritten_column (name : string) : bool :=
  String.eqb name "entityId" || String.eqb name "time_utc".

Definition row_cells (d : list (string * list value)) (i : nat)
  : list (string * value) :=
  flat_map (fun kv =>
              match nth_error (snd kv) i with
              | Some v => [(fst kv, v)]
              | None => []
              end) d.

Definition create_dataframe_from_api_data (data : ApiData)
  : result (DataFrame (option string)) :=
  match d_index data, d_entityId data, d_attributes data with
  | Some time_index, Some entity_id, Some attributes =>
      let entity_id_number :=
        match re_search entity_id with
        | Some d => d
        | None => EmptyString
        end in
      attribute_data <- attribute_dict [] attributes ;;
      n <- frame_length attribute_data ;;
      (* df['entityId'] = entity_id_number; df['time_utc'] = time_index *)
      if Nat.eqb n 0 then
        (* a frame without rows takes its index from the assigned
           values; the columns it already has are filled with NaN *)
        Ok (labelled (map (fun t => mkRow None t []) time_index))
      else if Nat.eqb (length time_index) n then
        Ok (combine (seq 0 n)
              (map (fun it =>
                      mkRow (Some entity_id_number) (snd it)
                        (row_cells
                           (filter (fun kv => negb (overwritten_column (fst kv)))
                              attribute_data)
                           (fst it)))
                 (combine (seq 0 n) time_index)))
      else Raise ValueError
  | _, _, _ => Raise ValueError
  end.

(** ** The remote service and the cache file *)

(** What [fetch_station_data] does for a request: [requests.get]
    raises, the status is not 200 (the function returns [None]), or the
    status is 200 and the function returns the decoded body. *)
Inductive Response : Type :=
| ConnectionFailed
| Status_not_200
| Json (data : ApiData).

(** [fetch_station_data station_id from_date to_date]; the base URL and
    the bearer token are part of the service. *)
Variable fetch_station_data : Z -> Z -> Z -> Response.

Definition hour : Z := 3600.

(** [pd.date_range(start, stop, freq='h')]: [start], [start + 1h], ...
    up to the last instant not after [stop]. *)
Definition date_range (start stop : Z) : list Z :=
  if start <=? stop
  then map (fun k => start + Z.of_nat k * hour)
         (seq 0 (Z.to_nat ((stop - start) / hour) + 1))
  else [].

(** Content of the file at [DATA_FILENAME]; [None] when
    [os.path.exists] is false. *)
Definition File : Type := option (list (Row Z)).

Definition read_csv (rows : list (Row Z)) : DataFrame Z := labelled rows.

(** Lines 203-212: the frame [old_data_temp].  The column [time_utc]
    of a file without rows is parsed into instants without time zone,
    and the comparison of line 209 with [START_DATE] raises a
    [TypeError]. *)
Definition load_cache (file : File) (START_DATE : Z) : result (DataFrame Z) :=
  match file with
  | Some rows =>
      match read_csv rows with
      | [] => Raise TypeError
      | old_data_temp =>
          Ok (filter (fun ir => START_DATE <=? time_utc (snd ir)) old_data_temp)
      end
  | None => Ok []
  end.

Definition isin (t : Z) (l : list Z) : bool := existsb (Z.eqb t) l.

(** Lines 223-227: the hours of [full_date_range] that no row of the
    station carries, in the order of [full_date_range]. *)
Definition missing_dates (old_data_temp : DataFrame Z)
    (full_date_range : list Z) (station_id : Z) : list Z :=
  let station_data :=
    filter (fun ir => entityId (snd ir) =? station_id) old_data_temp in
  let available_dates := map (fun ir => time_utc (snd ir)) station_data in
  filter (fun t => negb (isin t available_dates)) full_date_range.

(** The state of the loop over [STATION_IDS]: the list [dataframes] and
    the requests sent so far, oldest first. *)
Record LoopState : Type := mkLoopState {
  dataframes : list (DataFrame (option string));
  calls : list (Z * Z * Z)
}.

(** Lines 220-244: one iteration. Every exception of the [try] block is
    caught and leaves [dataframes] as it was. *)
Definition station_body (old_data_temp : DataFrame Z)
    (full_date_range : list Z) (END_DATE : Z)
    (st : LoopState) (station_id : Z) : LoopState :=
  match missing_dates old_data_temp full_date_range station_id with
  | [] => st
  | request_start_date :: _ =>
      let sent := calls st ++ [(station_id, request_start_date, END_DATE)] in
      match fetch_station_data station_id request_start_date END_DATE with
      | ConnectionFailed => mkLoopState (dataframes st) sent
      | Status_not_200 => mkLoopState (dataframes st) sent
      | Json data =>
          if truthy data then
            match create_dataframe_from_api_data data with
            | Ok df => mkLoopState (dataframes st ++ [df]) sent
            | Raise _ => mkLoopState (dataframes st) sent
            end
          else mkLoopState (dataframes st) sent
      end
  end.

Definition station_loop (old_data_temp : DataFrame Z)
    (full_date_range : list Z) (END_DATE : Z) (STATION_IDS : list Z)
    (st : LoopState) : LoopState :=
  fold_left (station_body old_data_temp full_date_range END_DATE)
    STATION_IDS st.

(** ** The merge (lines 246-258) *)

(** Line 250: the cast of the whole column; one bad cell raises. *)
Definition astype_entityId (df : DataFrame (option string))
  : result (DataFrame Z) :=
  mapM (fun ir =>
          n <- astype_int64 (entityId (snd ir)) ;;
          Ok (fst ir, mkRow n (time_utc (snd ir)) (cells (snd ir)))) df.

(** Lexicographic order on ([entityId], [time_utc]). *)
Definition key_leb (a b : Row Z) : bool :=
  (entityId a <? entityId b)
  || ((entityId a =? entityId b) && (time_utc a <=? time_utc b)).

Fixpoint insert_row (x : nat * Row Z) (l : DataFrame Z) : DataFrame Z :=
  match l with
  | [] => [x]
  | y :: l' =>
      if key_leb (snd x) (snd y) then x :: y :: l' else y :: insert_row x l'
  end.

(** [sort_values(by=['entityId', 'time_utc'])]: a stable sort; rows keep
    their labels. *)
Fixpoint sort_values (df : DataFrame Z) : DataFrame Z :=
  match df with
  | [] => []
  | x :: df' => insert_row x (sort_values df')
  end.

Definition reset_index (df : DataFrame Z) : DataFrame Z :=
  labelled (map snd df).

(** [to_csv(path, index=False)]: the rows without their labels. *)
Definition to_csv (df : DataFrame Z) : list (Row Z) := map snd df.

(** Lines 248-256: the frame [combined_data_temp]. *)
Definition combined_data_temp (old_data_temp : DataFrame Z)
    (dfs : list (DataFrame (option string))) : result (DataFrame Z) :=
  new_data_temp <- astype_entityId (concat dfs) ;;
  Ok (reset_index (sort_values (old_data_temp ++ new_data_temp))).

(** ** [update_and_save_station_data] *)

Inductive Status : Type :=
| Raised (e : exn)
| Untouched
| Wrote (rows : list (Row Z)).

Record Outcome : Type := mkOutcome {
  requests : list (Z * Z * Z);
  status : Status
}.

Definition update_and_save_station_data (file : File)
    (STATION_IDS : list Z) (START_DATE END_DATE : Z) : Outcome :=
  match load_cache file START_DATE with
  | Raise e => mkOutcome [] (Raised e)
  | Ok old_data_temp =>
      let full_date_range := date_range START_DATE (END_DATE - hour) in
      let st := station_loop old_data_temp full_date_range END_DATE
                  STATION_IDS (mkLoopState [] []) in
      match dataframes st with
      | [] => mkOutcome (calls st) Untouched
      | _ :: _ =>
          match combined_data_temp old_data_temp (dataframes st) with
          | Ok combined => mkOutcome (calls st) (Wrote (to_csv combined))
          | Raise e => mkOutcome (calls st) (Raised e)
          end
      end
  end.

(** The file after the call. *)
Definition file_after (file : File) (o : Outcome) : File :=
  match status o with
  | Wrote rows => Some rows
  | _ => file
  end.

(** The frames the loop has gathered when it ends; none when the load
    raised and the loop did not start. *)
Definition accumulated (file : File) (STATION_IDS : list Z)
    (START_DATE END_DATE : Z) : list (DataFrame (option string)) :=
  match load_cache file START_DATE with
  | Raise _ => []
  | Ok old_data_temp =>
      dataframes
        (station_loop old_data_temp
           (date_range START_DATE (END_DATE - hour)) END_DATE STATION_IDS
           (mkLoopState [] []))
  end.

(** ** The vocabulary of the specification *)

(** The key of a reading. *)
Definition key (r : Row Z) : Z * Z := (entityId r, time_utc r).

(** Non-decreasing lexicographic order on the key. *)
Definition key_le (a b : Row Z) : Prop :=
  entityId a < entityId b
  \/ (entityId a = entityId b /\ time_utc a <= time_utc b).

(** The file holds a row of [station] at the instant [t]. *)
Definition cached (file : File) (station t : Z) : Prop :=
  exists rows r,
    file = Some rows /\ In r rows /\ entityId r = station /\ time_utc r = t.

(** [t] is one of [START_DATE], [START_DATE + 1h], ..., [END_DATE - 1h]. *)
Definition window_hour (START_DATE END_DATE t : Z) : Prop :=
  exists k, 0 <= k /\ t = START_DATE + k * hour /\ t + hour <= END_DATE.

(** An hour of the window that the cache lacks for the station. *)
Definition gap (file : File) (START_DATE END_DATE station t : Z) : Prop :=
  window_hour START_DATE END_DATE t /\ ~ cached file station t.

(** The ways a station's request yields nothing: the connection fails,
    the status is not 200, or the body lacks one of the three keys. *)
Definition station_failure (r : Response) : Prop :=
  r = ConnectionFailed
  \/ r = Status_not_200
  \/ exists d, r = Json d
       /\ (d_index d = None \/ d_entityId d = None \/ d_attributes d = None).

End Synchronizer.

Arguments mkRow {value I} _ _ _.
Arguments entityId {value I} _.
Arguments time_utc {value I} _.
Arguments cells {value I} _.
Arguments labelled {value I} rows.
Arguments mkAttribute {value} _ _.
Arguments mkApiData {value} _ _ _ _.
Arguments d_index {value} _.
Arguments d_entityId {value} _.
Arguments d_attributes {value} _.
Arguments d_other {value} _.
Arguments truthy {value} d.
Arguments create_dataframe_from_api_data {value} data.
Arguments ConnectionFailed {value}.
Arguments Status_not_200 {value}.
Arguments Json {value} data.
Arguments read_csv {value} rows.
Arguments load_cache {value} file START_DATE.
Arguments missing_dates {value} old_data_temp full_date_range station_id.
Arguments mkLoopState {value} _ _.
Arguments dataframes {value} _.
Arguments calls {value} _.
Arguments station_body {value} fetch_station_data _ _ _ _ _.
Arguments station_loop {value} fetch_station_data _ _ _ _ _.
Arguments astype_entityId {value} df.
Arguments key_leb {value} a b.
Arguments insert_row {value} x l.
Arguments sort_values {value} df.
Arguments reset_index {value} df.
Arguments to_csv {value} df.
Arguments combined_data_temp {value} old_data_temp dfs.
Arguments Raised {value} e.
Arguments Untouched {value}.
Arguments Wrote {value} rows.
Arguments mkOutcome {value} _ _.
Arguments requests {value} _.
Arguments status {value} _.
Arguments update_and_save_station_data {value} fetch_station_data file
  STATION_IDS START_DATE END_DATE.
Arguments file_after {value} file o.
Arguments accumulated {value} fetch_station_data file STATION_IDS
  START_DATE END_DATE.
Arguments key {value} r.
Arguments key_le {value} a b.
Arguments cached {value} file station t.
Arguments gap {value} file START_DATE END_DATE station t.
Arguments station_failure {value} r.

(** ** Concrete stations, windows and services *)

Module Scenario.

(** [clock n]: [n] o'clock of the first day. *)
Definition clock (n : Z) : Z := n * hour.

Definition reading (station t v : Z) : Row Z Z :=
  mkRow station t [("availableBikeNumber"%string, v)].

Definition urn100 : string :=
  "urn:ngsi-ld:BikeHireDockingStation:KielRegion:100".

(** The body of a 200 answer for the hours [ts]: the average of hour
    [n] o'clock is [100 + n]. *)
Definition body (entity : string) (ts : list Z) : ApiData Z :=
  mkApiData (Some ts) (Some entity)
    (Some [mkAttribute (Some "availableBikeNumber"%string)
             (Some (map (fun t => 100 + t / hour) ts))])
    ["entityType"%string].

(** A service with every hour of station 100: it answers a request
    with the hours from [from_date] up to, not including, [to_date]. *)
Definition full_service (station from_date to_date : Z) : Response Z :=
  if station =? 100
  then Json (body urn100 (date_range from_date (to_date - hour)))
  else Status_not_200.

(** A service whose record of station 100 starts at 07:00. *)
Definition late_service (station from_date to_date : Z) : Response Z :=
  if station =? 100
  then Json (body urn100
               (date_range (Z.max from_date (clock 7)) (to_date - hour)))
  else Status_not_200.

(** A service that answers with an entity id the pattern does not
    match. *)
Definition foreign_service (station from_date to_date : Z) : Response Z :=
  Json (body "urn:ngsi-ld:BikeHireDockingStation:100"
          (date_range from_date (to_date - hour))).

(** A service that answers 200 with no hour at all. *)
Definition silent_service (station from_date to_date : Z) : Response Z :=
  Json (body urn100 []).


(** The cache of the 08:00-09:00 scenario, with stale averages. *)
Definition stale_cache : File Z :=
  Some [reading 100 (clock 8) 1; reading 100 (clock 9) 2].

End Scenario.

(** ** The window of the script (data.py, lines 292-293) *)

(** [END_DATE]: the current instant with minute, second and microsecond
    set to 0; [START_DATE]: one day before it. *)
Definition END_DATE_at (now : Z) : Z := now / hour * hour.

Definition START_DATE_at (now : Z) : Z := END_DATE_at now - 24 * hour.

(** ** A service with a complete record of a station *)

(** For every start [t], the answer to the request from [t] to
    [END_DATE] parses and casts into the rows of [station] at the hours
    [t], [t + 1h], ..., [END_DATE - 1h], in this order. *)
Definition answers_fully {value : Type} (fetch : Z -> Z -> Z -> Response value)
    (END_DATE station : Z) : Prop :=
  forall t,
    exists data df new,
      fetch station t END_DATE = Json data
      /\ create_dataframe_from_api_data data = Ok df
      /\ astype_entityId df = Ok new
      /\ map key (to_csv new)
         = map (fun u => (station, u)) (date_range t (END_DATE - hour)).

(** ** [update_and_save_predictions] (predictions.py) *)

Section Forecaster.

(** Cells of the cache and predicted numbers. *)
Variable value : Type.
Variable predicted : Type.

(** Lines 140-151 and 163 for the rows of one station: the tensor of
    the column 'availableBikeNumber', the network, the inverse scaling
    and [squeeze().tolist()].  [None]: an exception is raised there (a
    missing model or scaler, a missing column, a tensor of the wrong
    length); it is caught at line 180. *)
Variable forecast : list (Row value Z) -> option (list predicted).

(** Line 155 in the iteration number [k] of the loop: the current
    instant, cut to the hour. *)
Variable start_date : nat -> Z.

Record Prediction : Type := mkPrediction {
  prediction_entityId : Z;
  prediction_time_utc : Z;
  prediction_availableBikeNumber : predicted
}.

(** [Series.max()] and [Series.min()]; [None] is NaT, for a column
    without rows. *)
Definition series_max (l : list Z) : option Z :=
  match l with
  | [] => None
  | x :: l' => Some (fold_left Z.max l' x)
  end.

Definition series_min (l : list Z) : option Z :=
  match l with
  | [] => None
  | x :: l' => Some (fold_left Z.min l' x)
  end.

(** The comparison [a > b] of two instants; it is false when one of
    them is NaT. *)
Definition later (a b : option Z) : bool :=
  match a, b with
  | Some x, Some y => y <? x
  | _, _ => false
  end.

(** [Series.unique()]: the values in the order of their first
    occurrence. *)
Fixpoint unique_acc (seen : list Z) (l : list Z) : list Z :=
  match l with
  | [] => []
  | x :: l' =>
      if existsb (Z.eqb x) seen then unique_acc seen l'
      else x :: unique_acc (x :: seen) l'
  end.

Definition unique (l : list Z) : list Z := unique_acc [] l.

(** Lines 157-164: the frame of one station. *)
Definition temp_df (entity start : Z) (numbers : list predicted)
  : list Prediction :=
  map (fun iv => mkPrediction entity (start + Z.of_nat (fst iv) * hour) (snd iv))
    (combine (seq 0 (length numbers)) numbers).

(** Lines 135-167: the loop from the iteration number [k] on; [None]
    when an iteration raises. *)
Fixpoint predict_stations (data_temp : list (Row value Z)) (k : nat)
    (entityId_list : list Z) : option (list (list Prediction)) :=
  match entityId_list with
  | [] => Some []
  | entity :: rest =>
      let data_for_prediction :=
        filter (fun r => entityId r =? entity) data_temp in
      match forecast data_for_prediction with
      | None => None
      | Some numbers =>
          match predict_stations data_temp (S k) rest with
          | None => None
          | Some dfs => Some (temp_df entity (start_date k) numbers :: dfs)
          end
      end
  end.

Inductive PredictionsOutcome : Type :=
| UnboundLocal
| UpToDate
| Failed
| Saved (rows : list Prediction).

(** The function on the content of [DATA_FILENAME] and of
    [PREDICTIONS_FILENAME] ([None]: no such file; a file that exists is
    one that pandas reads, with the columns its writer gives it).  [UnboundLocal]: the
    comparison of line 96 reads [latest_data_time], which is not bound
    when the read of line 82 raised; nothing catches it.  [UpToDate]:
    the return of line 100.  [Failed]: the [try] of line 131 raised and
    line 180 caught it.  [Saved rows]: line 172 wrote [rows]. *)
Definition update_and_save_predictions (data_file : option (list (Row value Z)))
    (predictions_file : option (list Prediction)) : PredictionsOutcome :=
  let make_predictions :=
    match data_file with
    | None => Failed
    | Some data_temp =>
        let entityId_list := unique (map entityId data_temp) in
        match predict_stations data_temp 0 entityId_list with
        | None => Failed
        | Some [] => Failed
        | Some (df :: dfs) => Saved (concat (df :: dfs))
        end
    end in
  match predictions_file with
  | Some data_temp_predictions =>
      match data_file with
      | None => UnboundLocal
      | Some data_temp =>
          let latest_data_time := series_max (map time_utc data_temp) in
          let earliest_prediction_time :=
            series_min (map prediction_time_utc data_temp_predictions) in
          if later earliest_prediction_time latest_data_time
          then UpToDate
          else make_predictions
      end
  | None => make_predictions
  end.

(** The predictions file after the call. *)
Definition predictions_after (predictions_file : option (list Prediction))
    (o : PredictionsOutcome) : option (list Prediction) :=
  match o with
  | Saved rows => Some rows
  | _ => predictions_file
  end.

End Forecaster.

Arguments mkPrediction {predicted} _ _ _.
Arguments prediction_entityId {predicted} _.
Arguments prediction_time_utc {predicted} _.
Arguments prediction_availableBikeNumber {predicted} _.
Arguments temp_df {predicted} entity start numbers.
Arguments predict_stations {value predicted} forecast start_date data_temp k
  entityId_list.
Arguments UnboundLocal {predicted}.
Arguments UpToDate {predicted}.
Arguments Failed {predicted}.
Arguments Saved {predicted} rows.
Arguments update_and_save_predictions {value predicted} forecast start_date
  data_file predictions_file.
Arguments predictions_after {predicted} predictions_file o.

(** * Properties *)

Section Properties.

Variable value : Type.
Variable fetch : Z -> Z -> Z -> Response value.

Local Abbreviation row := (Row value Z).
Local Abbreviation frame := (DataFrame value Z).
Local Abbreviation raw_frame := (DataFrame value (option string)).

(** ** Labels *)

Lemma combine_seq_snd {A : Type} (l : list A) (a : nat) :
  map snd (combine (seq a (length l)) l) = l.
Proof.
  revert a; induction l as [|x l IH]; intros a; simpl; [reflexivity|].
  now rewrite IH.
Qed.

Lemma combine_seq_fst {A : Type} (l : list A) (a : nat) :
  map fst (combine (seq a (length l)) l) = seq a (length l).
Proof.
  revert a; induction l as [|x l IH]; intros a; simpl; [reflexivity|].
  now rewrite IH.
Qed.

Lemma to_csv_labelled (rows : list row) : to_csv (labelled rows) = rows.
Proof. apply combine_seq_snd. Qed.

Lemma labels_labelled (rows : list row) :
  map fst (labelled rows) = seq 0 (length rows).
Proof. apply combine_seq_fst. Qed.

Lemma length_labelled (rows : list row) :
  length (labelled rows) = length rows.
Proof.
  unfold labelled. rewrite length_combine, length_seq. apply Nat.min_id.
Qed.

(** ** The sort *)

Lemma key_leb_le (a b : row) : key_leb a b = true <-> key_le a b.
Proof.
  unfold key_leb, key_le.
  rewrite orb_true_iff, andb_true_iff, Z.ltb_lt, Z.eqb_eq, Z.leb_le.
  reflexivity.
Qed.

Lemma key_leb_total (a b : row) : key_leb a b = false -> key_le b a.
Proof.
  unfold key_leb, key_le. intros H.
  apply orb_false_iff in H. destruct H as [H1 H2].
  apply Z.ltb_ge in H1. apply andb_false_iff in H2.
  destruct H2 as [H2|H2]; [apply Z.eqb_neq in H2 | apply Z.leb_gt in H2]; lia.
Qed.

Lemma key_le_trans (a b c : row) : key_le a b -> key_le b c -> key_le a c.
Proof. unfold key_le. lia. Qed.

Lemma insert_row_perm (x : nat * row) (l : frame) :
  Permutation (insert_row x l) (x :: l).
Proof.
  induction l as [|y l IH]; simpl; [apply Permutation_refl|].
  destruct (key_leb (snd x) (snd y)); [apply Permutation_refl|].
  eapply perm_trans; [apply perm_skip, IH | apply perm_swap].
Qed.

Lemma sort_values_perm (df : frame) : Permutation (sort_values df) df.
Proof.
  induction df as [|x df IH]; simpl; [constructor|].
  eapply perm_trans; [apply insert_row_perm | now apply perm_skip].
Qed.

Lemma insert_row_sorted (x : nat * row) (l : frame) :
  StronglySorted key_le (map snd l) ->
  StronglySorted key_le (map snd (insert_row x l)).
Proof.
  induction l as [|y l IH]; simpl; intros Hs.
  - repeat constructor.
  - inversion Hs as [|? ? Hl Hy]; subst.
    destruct (key_leb (snd x) (snd y)) eqn:E; simpl.
    + apply key_leb_le in E. constructor; [assumption|].
      constructor; [assumption|].
      eapply Forall_impl; [|exact Hy].
      intros c Hc. eapply key_le_trans; eassumption.
    + apply key_leb_total in E. constructor; [now apply IH|].
      assert (P : Permutation (map snd (insert_row x l)) (snd x :: map snd l))
        by (apply (Permutation_map snd (insert_row_perm x l))).
      eapply Permutation_Forall; [apply Permutation_sym, P|].
      constructor; assumption.
Qed.

Lemma sort_values_sorted (df : frame) :
  StronglySorted key_le (to_csv (sort_values df)).
Proof.
  unfold to_csv. induction df as [|x df IH]; simpl; [constructor|].
  now apply insert_row_sorted.
Qed.

(** ** The cast *)

Lemma mapM_Ok_Forall2 {A B : Type} (f : A -> result B) (l : list A) (l' : list B) :
  mapM f l = Ok l' -> Forall2 (fun a b => f a = Ok b) l l'.
Proof.
  revert l'; induction l as [|a l IH]; simpl; intros l' H.
  - inversion H; constructor.
  - destruct (f a) as [b|e] eqn:Ea; simpl in H; [|discriminate].
    destruct (mapM f l) as [bs|e] eqn:El; simpl in H; [|discriminate].
    inversion H; subst. constructor; [assumption | now apply IH].
Qed.

Lemma astype_entityId_In (df : raw_frame) (new : frame) (ir : nat * Row value (option string)) :
  astype_entityId df = Ok new -> In ir df ->
  exists n, astype_int64 (entityId (snd ir)) = Ok n
            /\ In (fst ir, mkRow n (time_utc (snd ir)) (cells (snd ir))) new.
Proof.
  unfold astype_entityId. intros H. apply mapM_Ok_Forall2 in H.
  induction H as [|a b l l' Hab _ IH]; intros Hin; [destruct Hin|].
  destruct Hin as [->|Hin].
  - destruct (astype_int64 (entityId (snd ir))) as [n|e]; simpl in Hab;
      [|discriminate].
    inversion Hab; subst. exists n. split; [reflexivity | now left].
  - destruct (IH Hin) as (n & Hn & Hi). exists n. split; [assumption | now right].
Qed.

(** ** The window *)

Lemma in_date_range (START_DATE END_DATE t : Z) :
  In t (date_range START_DATE (END_DATE - hour))
  <-> window_hour START_DATE END_DATE t.
Proof.
  unfold date_range, window_hour, hour. split.
  - destruct (START_DATE <=? END_DATE - 3600) eqn:E; [|intros []].
    apply Z.leb_le in E. intros H. apply in_map_iff in H.
    destruct H as (k & <- & Hk). apply in_seq in Hk.
    exists (Z.of_nat k). split; [lia|]. split; [reflexivity|].
    assert (0 <= (END_DATE - 3600 - START_DATE) / 3600)
      by (apply Z.div_pos; lia).
    assert (Z.of_nat k <= (END_DATE - 3600 - START_DATE) / 3600) by lia.
    pose proof (Z.mul_div_le (END_DATE - 3600 - START_DATE) 3600 eq_refl).
    nia.
  - intros (k & Hk & -> & Hle).
    assert (E : START_DATE <= END_DATE - 3600) by lia.
    apply Z.leb_le in E. rewrite E. apply in_map_iff.
    exists (Z.to_nat k). split; [now rewrite Z2Nat.id|].
    apply in_seq.
    assert (k <= (END_DATE - 3600 - START_DATE) / 3600)
      by (apply Z.div_le_lower_bound; lia).
    lia.
Qed.

Lemma date_range_increasing (start stop : Z) :
  StronglySorted Z.lt (date_range start stop).
Proof.
  unfold date_range. destruct (start <=? stop); [|constructor].
  generalize (Z.to_nat ((stop - start) / hour) + 1)%nat as n.
  generalize 0%nat as a.
  intros a n; revert a; induction n as [|n IH]; intros a; simpl;
    [constructor|].
  constructor; [apply IH|].
  apply Forall_forall. intros t Ht. apply in_map_iff in Ht.
  destruct Ht as (k & <- & Hk). apply in_seq in Hk. unfold hour. lia.
Qed.

Lemma filter_head_least (f : Z -> bool) (l : list Z) (t : Z) (rest : list Z) :
  StronglySorted Z.lt l -> filter f l = t :: rest ->
  forall u, In u (filter f l) -> t <= u.
Proof.
  induction 1 as [|x l Hs IH Hx]; simpl; [discriminate|].
  destruct (f x).
  - intros E; inversion E; subst. intros u [->|Hu]; [lia|].
    apply filter_In in Hu. destruct Hu as [Hu _].
    rewrite Forall_forall in Hx. specialize (Hx u Hu). lia.
  - exact IH.
Qed.

(** ** The cache as loaded *)

Lemma in_labelled (rows : list row) (r : row) :
  In r rows <-> exists i, In (i, r) (labelled rows).
Proof.
  split.
  - intros H. rewrite <- (to_csv_labelled rows) in H. unfold to_csv in H.
    apply in_map_iff in H. destruct H as ([i r'] & E & H). simpl in E.
    subst. now exists i.
  - intros [i H]. rewrite <- (to_csv_labelled rows).
    apply (in_map snd) in H. exact H.
Qed.

Lemma load_cache_raises (file : File value) (START_DATE : Z) (e : exn) :
  load_cache file START_DATE = Raise e -> file = Some [] /\ e = TypeError.
Proof.
  unfold load_cache. destruct file as [[|x rows]|]; simpl; try discriminate.
  intros H; inversion H; split; reflexivity.
Qed.

Lemma load_cache_loads (file : File value) (START_DATE : Z) :
  file <> Some [] -> exists old, load_cache file START_DATE = Ok old.
Proof.
  unfold load_cache. destruct file as [[|x rows]|]; simpl; intros H.
  - now elim H.
  - eexists; reflexivity.
  - eexists; reflexivity.
Qed.

Lemma load_cache_filter (file : File value) (START_DATE : Z) (old : frame) :
  load_cache file START_DATE = Ok old ->
  file <> Some []
  /\ old = match file with
           | Some rows =>
               filter (fun ir => START_DATE <=? time_utc (snd ir))
                 (read_csv rows)
           | None => []
           end.
Proof.
  unfold load_cache. destruct file as [[|x rows]|]; simpl; try discriminate;
    intros H; inversion H; split; try reflexivity; discriminate.
Qed.

Lemma in_load_cache (file : File value) (START_DATE : Z) (old : frame)
    (r : row) :
  load_cache file START_DATE = Ok old ->
  (In r (to_csv old)
   <-> exists rows, file = Some rows /\ In r rows /\ START_DATE <= time_utc r).
Proof.
  intros Hl. apply load_cache_filter in Hl. destruct Hl as [_ ->].
  unfold to_csv, read_csv. destruct file as [rows|].
  - rewrite in_map_iff. split.
    + intros ([i r'] & E & H). simpl in E. subst r'.
      apply filter_In in H. destruct H as [H Ht]. simpl in Ht.
      apply Z.leb_le in Ht. exists rows. split; [reflexivity|].
      split; [|assumption]. apply in_labelled. now exists i.
    + intros (rows' & E & H & Ht). inversion E; subst rows'.
      apply in_labelled in H. destruct H as [i H].
      exists (i, r). split; [reflexivity|]. apply filter_In.
      split; [assumption|]. simpl. now apply Z.leb_le.
  - simpl. split; [intros [] | intros (rows & E & _); discriminate].
Qed.

Lemma isin_In (t : Z) (l : list Z) : isin t l = true <-> In t l.
Proof.
  unfold isin. rewrite existsb_exists. split.
  - intros (u & Hu & E). apply Z.eqb_eq in E. now subst.
  - intros H. exists t. split; [assumption | apply Z.eqb_refl].
Qed.

Lemma in_missing_dates (file : File value) (START_DATE END_DATE s t : Z)
    (old : frame) :
  load_cache file START_DATE = Ok old ->
  (In t (missing_dates old (date_range START_DATE (END_DATE - hour)) s)
   <-> gap file START_DATE END_DATE s t).
Proof.
  intros Hl. unfold missing_dates, gap. rewrite filter_In, in_date_range.
  assert (A : forall u, START_DATE <= u ->
     (In u (map (fun ir : nat * row => time_utc (snd ir))
              (filter (fun ir => entityId (snd ir) =? s) old))
      <-> cached file s u)).
  { intros u Hu. rewrite in_map_iff. unfold cached. split.
    - intros ([i r] & E & H). simpl in E. apply filter_In in H.
      destruct H as [H Hs]. simpl in Hs. apply Z.eqb_eq in Hs.
      apply (in_map snd) in H. apply (in_load_cache _ _ _ _ Hl) in H.
      destruct H as (rows & Ef & Hr & _). simpl in Hr.
      exists rows, r. auto.
    - intros (rows & r & Ef & Hr & Hs & Ht).
      assert (H : In r (to_csv old)).
      { apply (in_load_cache _ _ _ _ Hl). exists rows. repeat split; auto.
        lia. }
      unfold to_csv in H. apply in_map_iff in H.
      destruct H as ([i r'] & E & H). simpl in E. subst r'.
      exists (i, r). split; [assumption|]. apply filter_In.
      split; [assumption|]. simpl. now apply Z.eqb_eq. }
  split.
  - intros [Hw Hn]. split; [assumption|].
    assert (START_DATE <= t).
    { destruct Hw as (k & Hk & -> & _). unfold hour. lia. }
    rewrite <- A by assumption. rewrite <- isin_In.
    apply negb_true_iff in Hn. congruence.
  - intros [Hw Hn]. split; [assumption|].
    assert (START_DATE <= t).
    { destruct Hw as (k & Hk & -> & _). unfold hour. lia. }
    apply negb_true_iff. apply not_true_is_false.
    rewrite isin_In, A by assumption. assumption.
Qed.

(** ** The loop over the stations *)

Section Loop.

Variable old : frame.
Variable full : list Z.
Variable END_DATE : Z.

(** One iteration from the empty state: what a station contributes. *)
Local Abbreviation alone :=
  (station_body fetch old full END_DATE (mkLoopState [] [])).

Lemma station_body_app (st : LoopState value) (s : Z) :
  station_body fetch old full END_DATE st s
  = mkLoopState (dataframes st ++ dataframes (alone s))
      (calls st ++ calls (alone s)).
Proof.
  unfold station_body. destruct st as [dfs cs]. simpl.
  destruct (missing_dates old full s) as [|t rest]; simpl.
  - now rewrite !app_nil_r.
  - destruct (fetch s t END_DATE) as [| |data]; simpl;
      rewrite ?app_nil_r; try reflexivity.
    destruct (truthy data); simpl; rewrite ?app_nil_r; try reflexivity.
    destruct (create_dataframe_from_api_data data); simpl;
      rewrite ?app_nil_r; reflexivity.
Qed.

Lemma station_loop_app (ids : list Z) (st : LoopState value) :
  station_loop fetch old full END_DATE ids st
  = mkLoopState
      (dataframes st ++ flat_map (fun s => dataframes (alone s)) ids)
      (calls st ++ flat_map (fun s => calls (alone s)) ids).
Proof.
  unfold station_loop. revert st.
  induction ids as [|s ids IH]; intros st; simpl.
  - destruct st; simpl. now rewrite !app_nil_r.
  - rewrite IH, station_body_app. simpl. now rewrite <- !app_assoc.
Qed.

Lemma calls_alone (s : Z) :
  calls (alone s)
  = match missing_dates old full s with
    | [] => []
    | t :: _ => [(s, t, END_DATE)]
    end.
Proof.
  unfold station_body. destruct (missing_dates old full s) as [|t rest];
    [reflexivity|].
  destruct (fetch s t END_DATE) as [| |data]; try reflexivity.
  destruct (truthy data); try reflexivity.
  destruct (create_dataframe_from_api_data data); reflexivity.
Qed.

Lemma dataframes_alone (s : Z) :
  dataframes (alone s)
  = match missing_dates old full s with
    | [] => []
    | t :: _ =>
        match fetch s t END_DATE with
        | Json data =>
            if truthy data then
              match create_dataframe_from_api_data data with
              | Ok df => [df]
              | Raise _ => []
              end
            else []
        | _ => []
        end
    end.
Proof.
  unfold station_body. destruct (missing_dates old full s) as [|t rest];
    [reflexivity|].
  destruct (fetch s t END_DATE) as [| |data]; try reflexivity.
  destruct (truthy data); try reflexivity.
  destruct (create_dataframe_from_api_data data); reflexivity.
Qed.

End Loop.

Lemma missing_key_raises (d : ApiData value) :
  d_index d = None \/ d_entityId d = None \/ d_attributes d = None ->
  create_dataframe_from_api_data d = Raise ValueError.
Proof.
  unfold create_dataframe_from_api_data.
  intros [H|[H|H]]; rewrite H; try reflexivity.
  - destruct (d_index d); reflexivity.
  - destruct (d_index d); [destruct (d_entityId d)|]; reflexivity.
Qed.

Lemma run_load_raises (file : File value) (ids : list Z)
    (START_DATE END_DATE : Z) (e : exn) :
  load_cache file START_DATE = Raise e ->
  update_and_save_station_data fetch file ids START_DATE END_DATE
  = mkOutcome [] (Raised e).
Proof. unfold update_and_save_station_data. now intros ->. Qed.

Lemma requests_run (file : File value) (ids : list Z) (START_DATE END_DATE : Z)
    (old : frame) :
  load_cache file START_DATE = Ok old ->
  requests (update_and_save_station_data fetch file ids START_DATE END_DATE)
  = flat_map
      (fun s => calls (station_body fetch old
                         (date_range START_DATE (END_DATE - hour)) END_DATE
                         (mkLoopState [] []) s)) ids.
Proof.
  unfold update_and_save_station_data. intros ->.
  rewrite station_loop_app. simpl.
  destruct (flat_map _ ids); [reflexivity|].
  destruct (combined_data_temp _ _); reflexivity.
Qed.

Lemma accumulated_run (file : File value) (ids : list Z) (START_DATE END_DATE : Z)
    (old : frame) :
  load_cache file START_DATE = Ok old ->
  accumulated fetch file ids START_DATE END_DATE
  = flat_map
      (fun s => dataframes (station_body fetch old
                              (date_range START_DATE (END_DATE - hour))
                              END_DATE (mkLoopState [] []) s)) ids.
Proof. unfold accumulated. intros ->. now rewrite station_loop_app. Qed.

Lemma accumulated_load_raises (file : File value) (ids : list Z)
    (START_DATE END_DATE : Z) (e : exn) :
  load_cache file START_DATE = Raise e ->
  accumulated fetch file ids START_DATE END_DATE = [].
Proof. unfold accumulated. now intros ->. Qed.

Lemma status_run (file : File value) (ids : list Z) (START_DATE END_DATE : Z)
    (old : frame) :
  load_cache file START_DATE = Ok old ->
  status (update_and_save_station_data fetch file ids START_DATE END_DATE)
  = match accumulated fetch file ids START_DATE END_DATE with
    | [] => Untouched
    | dfs =>
        match combined_data_temp old dfs with
        | Ok combined => Wrote (to_csv combined)
        | Raise e => Raised e
        end
    end.
Proof.
  unfold update_and_save_station_data, accumulated. intros ->.
  destruct (dataframes _); [reflexivity|].
  destruct (combined_data_temp _ _); reflexivity.
Qed.

(** ** What a write holds *)

Lemma to_csv_reset_index (df : frame) : to_csv (reset_index df) = to_csv df.
Proof. unfold reset_index. apply to_csv_labelled. Qed.

Lemma written_rows (file : File value) (ids : list Z) (START_DATE END_DATE : Z)
    (w : list row) :
  status (update_and_save_station_data fetch file ids START_DATE END_DATE)
  = Wrote w ->
  exists old new,
    load_cache file START_DATE = Ok old
    /\ astype_entityId
         (concat (accumulated fetch file ids START_DATE END_DATE))
       = Ok new
    /\ combined_data_temp old
         (accumulated fetch file ids START_DATE END_DATE)
       = Ok (reset_index (sort_values (old ++ new)))
    /\ w = to_csv (sort_values (old ++ new)).
Proof.
  destruct (load_cache file START_DATE) as [old|e] eqn:El.
  2:{ rewrite (run_load_raises _ _ _ _ _ El). discriminate. }
  rewrite (status_run _ _ _ _ _ El).
  destruct (accumulated fetch file ids START_DATE END_DATE) as [|df dfs] eqn:Ea;
    [discriminate|].
  unfold combined_data_temp.
  destruct (astype_entityId (concat (df :: dfs))) as [new|e]; simpl;
    [|discriminate].
  intros H. inversion H. exists old, new.
  split; [reflexivity|]. split; [reflexivity|]. split; [reflexivity|].
  now rewrite to_csv_reset_index.
Qed.

Lemma in_accumulated (file : File value) (ids : list Z) (START_DATE END_DATE : Z)
    (s t : Z) (data : ApiData value) (df : raw_frame) :
  In (s, t, END_DATE)
    (requests (update_and_save_station_data fetch file ids START_DATE END_DATE)) ->
  fetch s t END_DATE = Json data ->
  create_dataframe_from_api_data data = Ok df ->
  In df (accumulated fetch file ids START_DATE END_DATE).
Proof.
  destruct (load_cache file START_DATE) as [old|e] eqn:El.
  2:{ rewrite (run_load_raises _ _ _ _ _ El). intros []. }
  rewrite (requests_run _ _ _ _ _ El), (accumulated_run _ _ _ _ _ El).
  intros Hin Hf Hc.
  apply in_flat_map in Hin. destruct Hin as (s' & Hs' & Hin).
  apply in_flat_map. exists s'. split; [assumption|].
  rewrite calls_alone in Hin. rewrite dataframes_alone.
  destruct (missing_dates _ _ s') as [|t' rest]; [destruct Hin|].
  destruct Hin as [E|[]]. inversion E; subst s' t'.
  rewrite Hf.
  assert (Ht : truthy data = true).
  { unfold create_dataframe_from_api_data in Hc. unfold truthy.
    destruct (d_index data); [reflexivity | discriminate]. }
  rewrite Ht, Hc. now left.
Qed.

Lemma flat_map_all_nil {A B : Type} (f : A -> list B) (l : list A) :
  (forall x, In x l -> f x = []) -> flat_map f l = [].
Proof.
  induction l as [|x l IH]; simpl; intros H; [reflexivity|].
  rewrite (H x (or_introl eq_refl)). apply IH. intros y Hy. apply H. now right.
Qed.

Lemma date_range_head (start stop : Z) :
  start <= stop -> exists rest, date_range start stop = start :: rest.
Proof.
  intros H. unfold date_range. apply Z.leb_le in H. rewrite H.
  rewrite Nat.add_1_r. cbn [seq map]. eexists. f_equal.
  change (Z.of_nat 0) with 0. lia.
Qed.

Lemma missing_dates_of_empty (l : list Z) (s : Z) :
  missing_dates (value := value) [] l s = l.
Proof.
  unfold missing_dates. simpl. induction l as [|t l IH]; simpl; congruence.
Qed.

(** The request of an entry with a gap: from its earliest gap. *)
Lemma earliest_gap_requested (file : File value) (ids : list Z)
    (START_DATE END_DATE s t : Z) :
  file <> Some [] -> In s ids ->
  gap file START_DATE END_DATE s t ->
  (forall u, gap file START_DATE END_DATE s u -> t <= u) ->
  In (s, t, END_DATE)
    (requests (update_and_save_station_data fetch file ids START_DATE END_DATE)).
Proof.
  intros Hfile Hs Hg Hmin.
  destruct (load_cache_loads file START_DATE Hfile) as [old El].
  rewrite (requests_run _ _ _ _ _ El). apply in_flat_map.
  exists s. split; [assumption|]. rewrite calls_alone.
  apply (in_missing_dates _ _ _ _ _ _ El) in Hg.
  destruct (missing_dates old _ s) as [|t' rest] eqn:Em; [destruct Hg|].
  assert (Ht' : gap file START_DATE END_DATE s t').
  { apply (in_missing_dates _ _ _ _ _ _ El). rewrite Em. now left. }
  assert (Hle : t' <= t).
  { unfold missing_dates in Em, Hg.
    refine (filter_head_least _ _ t' rest (date_range_increasing _ _) Em t _).
    rewrite Em. exact Hg. }
  specialize (Hmin t' Ht'). left. repeat f_equal. lia.
Qed.

Lemma failing_station_gathers_nothing (file : File value) (ids : list Z)
    (s START_DATE END_DATE : Z) (old : frame) :
  load_cache file START_DATE = Ok old -> In s ids ->
  (forall t,
      In (s, t, END_DATE)
        (requests (update_and_save_station_data fetch file ids
                     START_DATE END_DATE)) ->
      station_failure (fetch s t END_DATE)) ->
  dataframes
    (station_body fetch old (date_range START_DATE (END_DATE - hour)) END_DATE
       (mkLoopState [] []) s) = [].
Proof.
  intros El Hs Hfail. rewrite dataframes_alone.
  destruct (missing_dates _ _ s) as [|t rest] eqn:Em; [reflexivity|].
  assert (Hin : In (s, t, END_DATE)
            (requests (update_and_save_station_data fetch file ids
                         START_DATE END_DATE))).
  { rewrite (requests_run _ _ _ _ _ El). apply in_flat_map. exists s.
    split; [assumption|]. rewrite calls_alone, Em. now left. }
  destruct (Hfail t Hin) as [E|[E|(d & E & Hd)]]; rewrite E;
    try reflexivity.
  destruct (truthy d); [|reflexivity].
  now rewrite (missing_key_raises d Hd).
Qed.

(** ** The claims *)

(** X18. On a cache file that is absent or holds at least one row, each
    entry of [STATION_IDS] contributes, in order, either no request,
    exactly when no hour of [START_DATE], [START_DATE + 1h], ...,
    [END_DATE - 1h] is absent from the cached rows of that station, or
    exactly one request, from the earliest absent hour to [END_DATE];
    and when no station of the list lacks an hour, the file is not
    written. *)
Theorem fetch_once_from_earliest_gap (file : File value) (STATION_IDS : list Z)
    (START_DATE END_DATE : Z) :
  file <> Some [] ->
  let o := update_and_save_station_data fetch file STATION_IDS
             START_DATE END_DATE in
  (exists req : Z -> list (Z * Z * Z),
      requests o = flat_map req STATION_IDS
      /\ forall s,
          (req s = [] /\ forall t, ~ gap file START_DATE END_DATE s t)
          \/ (exists t,
                 req s = [(s, t, END_DATE)]
                 /\ gap file START_DATE END_DATE s t
                 /\ forall u, gap file START_DATE END_DATE s u -> t <= u))
  /\ ((forall s t, In s STATION_IDS -> ~ gap file START_DATE END_DATE s t) ->
      status o = Untouched /\ file_after file o = file).
Proof.
  intros Hfile o. subst o.
  destruct (load_cache_loads file START_DATE Hfile) as [old El]. split.
  - eexists. split; [apply (requests_run _ _ _ _ _ El)|].
    intros s. cbv beta. rewrite calls_alone.
    destruct (missing_dates _ _ s) as [|t rest] eqn:Em.
    + left. split; [reflexivity|]. intros t Hg.
      apply (in_missing_dates _ _ _ _ _ _ El) in Hg. rewrite Em in Hg.
      destruct Hg.
    + right. exists t. split; [reflexivity|]. split.
      * apply (in_missing_dates _ _ _ _ _ _ El). rewrite Em. now left.
      * intros u Hu. apply (in_missing_dates _ _ _ _ _ _ El) in Hu.
        unfold missing_dates in Em, Hu.
        eapply filter_head_least; [apply date_range_increasing | exact Em |
                                    exact Hu].
  - intros Hno.
    assert (Ha : accumulated fetch file STATION_IDS START_DATE END_DATE = []).
    { rewrite (accumulated_run _ _ _ _ _ El). apply flat_map_all_nil.
      intros s Hs. rewrite dataframes_alone.
      destruct (missing_dates _ _ s) as [|t rest] eqn:Em; [reflexivity|].
      exfalso. apply (Hno s t Hs). apply (in_missing_dates _ _ _ _ _ _ El).
      rewrite Em. now left. }
    unfold file_after. rewrite (status_run _ _ _ _ _ El), Ha.
    split; reflexivity.
Qed.

(** C6. When every request the run sends for station [s] fails (the
    connection raises, the status is not 200, or the body lacks
    'index', 'entityId' or 'attributes', on which the parser raises a
    [ValueError]), the station contributes no frame and the merge and
    the write are those of the run without [s].  The other stations are
    processed: each of them that lacks an hour is requested from its
    earliest missing hour, the frame parsed from its answer is
    gathered, and when the cast of the merge succeeds the file is
    written and holds every row of that frame. *)
Theorem station_failure_is_isolated (file : File value) (l1 l2 : list Z)
    (s START_DATE END_DATE : Z) :
  (forall t,
      In (s, t, END_DATE)
        (requests (update_and_save_station_data fetch file (l1 ++ s :: l2)
                     START_DATE END_DATE)) ->
      station_failure (fetch s t END_DATE)) ->
  (forall d : ApiData value,
      d_index d = None \/ d_entityId d = None \/ d_attributes d = None ->
      create_dataframe_from_api_data d = Raise ValueError)
  /\ accumulated fetch file (l1 ++ s :: l2) START_DATE END_DATE
     = accumulated fetch file l1 START_DATE END_DATE
       ++ accumulated fetch file l2 START_DATE END_DATE
  /\ requests (update_and_save_station_data fetch file (l1 ++ s :: l2)
                START_DATE END_DATE)
     = requests (update_and_save_station_data fetch file l1
                   START_DATE END_DATE)
       ++ requests (update_and_save_station_data fetch file [s]
                      START_DATE END_DATE)
       ++ requests (update_and_save_station_data fetch file l2
                      START_DATE END_DATE)
  /\ status (update_and_save_station_data fetch file (l1 ++ s :: l2)
               START_DATE END_DATE)
     = status (update_and_save_station_data fetch file (l1 ++ l2)
                 START_DATE END_DATE)
  /\ (forall s' t,
         In s' (l1 ++ l2) -> file <> Some [] ->
         gap file START_DATE END_DATE s' t ->
         (forall u, gap file START_DATE END_DATE s' u -> t <= u) ->
         In (s', t, END_DATE)
           (requests (update_and_save_station_data fetch file (l1 ++ s :: l2)
                        START_DATE END_DATE)))
  /\ (forall s' t data df,
         In (s', t, END_DATE)
           (requests (update_and_save_station_data fetch file (l1 ++ s :: l2)
                        START_DATE END_DATE)) ->
         fetch s' t END_DATE = Json data ->
         create_dataframe_from_api_data data = Ok df ->
         In df (accumulated fetch file (l1 ++ s :: l2) START_DATE END_DATE)
         /\ forall new,
             astype_entityId
               (concat (accumulated fetch file (l1 ++ s :: l2)
                          START_DATE END_DATE)) = Ok new ->
             exists w,
               status (update_and_save_station_data fetch file (l1 ++ s :: l2)
                         START_DATE END_DATE) = Wrote w
               /\ forall i r,
                   In (i, r) df ->
                   exists n,
                     astype_int64 (entityId r) = Ok n
                     /\ In (mkRow n (time_utc r) (cells r)) w).
Proof.
  intros Hfail.
  split; [exact missing_key_raises|].
  assert (Hserved : forall s' t data df,
             In (s', t, END_DATE)
               (requests (update_and_save_station_data fetch file
                            (l1 ++ s :: l2) START_DATE END_DATE)) ->
             fetch s' t END_DATE = Json data ->
             create_dataframe_from_api_data data = Ok df ->
             In df (accumulated fetch file (l1 ++ s :: l2) START_DATE END_DATE)
             /\ forall new,
                 astype_entityId
                   (concat (accumulated fetch file (l1 ++ s :: l2)
                              START_DATE END_DATE)) = Ok new ->
                 exists w,
                   status (update_and_save_station_data fetch file
                             (l1 ++ s :: l2) START_DATE END_DATE) = Wrote w
                   /\ forall i r,
                       In (i, r) df ->
                       exists n,
                         astype_int64 (entityId r) = Ok n
                         /\ In (mkRow n (time_utc r) (cells r)) w).
  { intros s' t data df Hreq Hf Hc.
    pose proof (in_accumulated _ _ _ _ _ _ _ _ Hreq Hf Hc) as Hdf.
    split; [exact Hdf|]. intros new Hn.
    destruct (load_cache file START_DATE) as [old|e] eqn:El.
    2:{ rewrite (run_load_raises _ _ _ _ _ El) in Hreq. destruct Hreq. }
    rewrite (status_run _ _ _ _ _ El).
    destruct (accumulated fetch file (l1 ++ s :: l2) START_DATE END_DATE)
      as [|df0 dfs] eqn:Ea; [destruct Hdf|].
    unfold combined_data_temp. rewrite Hn. cbn [bind].
    eexists. split; [reflexivity|]. intros i r Hr.
    assert (Hin : In (i, r) (concat (df0 :: dfs)))
      by (apply in_concat; exists df; split; assumption).
    destruct (astype_entityId_In _ _ _ Hn Hin) as (n & En & Hnew).
    exists n. split; [exact En|]. simpl in Hnew.
    rewrite to_csv_reset_index. unfold to_csv.
    apply (in_map snd) in Hnew. simpl in Hnew.
    eapply Permutation_in.
    - apply Permutation_sym, Permutation_map, sort_values_perm.
    - rewrite map_app. apply in_or_app. now right. }
  assert (Hrest :
    accumulated fetch file (l1 ++ s :: l2) START_DATE END_DATE
    = accumulated fetch file l1 START_DATE END_DATE
      ++ accumulated fetch file l2 START_DATE END_DATE
    /\ requests (update_and_save_station_data fetch file (l1 ++ s :: l2)
                  START_DATE END_DATE)
       = requests (update_and_save_station_data fetch file l1
                     START_DATE END_DATE)
         ++ requests (update_and_save_station_data fetch file [s]
                        START_DATE END_DATE)
         ++ requests (update_and_save_station_data fetch file l2
                        START_DATE END_DATE)
    /\ status (update_and_save_station_data fetch file (l1 ++ s :: l2)
                 START_DATE END_DATE)
       = status (update_and_save_station_data fetch file (l1 ++ l2)
                   START_DATE END_DATE)).
  { destruct (load_cache file START_DATE) as [old|e] eqn:El.
    - pose proof (failing_station_gathers_nothing file (l1 ++ s :: l2) s
                    START_DATE END_DATE old El (in_elt s l1 l2) Hfail) as Hs.
      assert (Ha : accumulated fetch file (l1 ++ s :: l2) START_DATE END_DATE
                   = accumulated fetch file (l1 ++ l2) START_DATE END_DATE).
      { rewrite !(accumulated_run _ _ _ _ _ El), !flat_map_app. simpl.
        now rewrite Hs. }
      split; [|split].
      + rewrite Ha, !(accumulated_run _ _ _ _ _ El). apply flat_map_app.
      + rewrite !(requests_run _ _ _ _ _ El), flat_map_app. simpl.
        now rewrite app_nil_r.
      + now rewrite !(status_run _ _ _ _ _ El), Ha.
    - rewrite !(accumulated_load_raises _ _ _ _ _ El).
      rewrite !(run_load_raises _ _ _ _ _ El). repeat split. }
  destruct Hrest as (Hacc & Hreq & Hst).
  split; [exact Hacc|]. split; [exact Hreq|]. split; [exact Hst|].
  split; [|exact Hserved].
  intros s' t Hs' Hfile Hg Hmin.
  apply earliest_gap_requested; try assumption.
  apply in_app_or in Hs'. apply in_or_app.
  destruct Hs' as [H|H]; [now left | right; now right].
Qed.


(** C8. A written file is in non-decreasing lexicographic order of
    ([entityId], [time_utc]); it is the frame [combined_data_temp]
    without its labels, and the labels of that frame are 0, 1, ...,
    one per row. *)
Theorem written_file_sorted_and_reindexed (file : File value)
    (STATION_IDS : list Z) (START_DATE END_DATE : Z) (w : list row) :
  status (update_and_save_station_data fetch file STATION_IDS
            START_DATE END_DATE) = Wrote w ->
  StronglySorted key_le w
  /\ exists old combined,
      load_cache file START_DATE = Ok old
      /\ combined_data_temp old
           (accumulated fetch file STATION_IDS START_DATE END_DATE)
         = Ok combined
      /\ w = to_csv combined
      /\ map fst combined = seq 0 (length w).
Proof.
  intros H. apply written_rows in H.
  destruct H as (old & new & El & _ & Hc & ->).
  split; [apply sort_values_sorted|].
  exists old. eexists. split; [exact El|]. split; [exact Hc|]. split.
  - now rewrite to_csv_reset_index.
  - unfold reset_index. rewrite labels_labelled. reflexivity.
Qed.

(** C9. The loaded cache holds exactly the rows of the file whose
    [time_utc] is not before [START_DATE]; a written file is a
    rearrangement of those rows and the fetched rows, so a row of the
    old file older than [START_DATE] is in it only if it was fetched;
    and a missing file loads, without an exception, as the cache
    without rows, so that every listed station is requested from
    [START_DATE] on. *)
Theorem cached_rows_before_start_dropped (file : File value)
    (STATION_IDS : list Z) (START_DATE END_DATE : Z) :
  (forall old r,
      load_cache file START_DATE = Ok old ->
      (In r (to_csv old)
       <-> exists rows,
           file = Some rows /\ In r rows /\ START_DATE <= time_utc r))
  /\ (forall w,
         status (update_and_save_station_data fetch file STATION_IDS
                   START_DATE END_DATE) = Wrote w ->
         exists old new,
           load_cache file START_DATE = Ok old
           /\ astype_entityId
                (concat (accumulated fetch file STATION_IDS START_DATE END_DATE))
              = Ok new
           /\ Permutation w (to_csv old ++ to_csv new)
           /\ forall r, In r w -> time_utc r < START_DATE -> In r (to_csv new))
  /\ load_cache (value := value) None START_DATE = Ok []
  /\ (START_DATE + hour <= END_DATE ->
      requests (update_and_save_station_data fetch None STATION_IDS
                  START_DATE END_DATE)
      = map (fun s => (s, START_DATE, END_DATE)) STATION_IDS).
Proof.
  split; [|split; [|split]].
  - intros old r El. now apply in_load_cache.
  - intros w H. apply written_rows in H.
    destruct H as (old & new & El & Hn & _ & ->).
    exists old, new. split; [assumption|]. split; [assumption|].
    assert (P : Permutation (to_csv (sort_values (old ++ new)))
                  (to_csv old ++ to_csv new)).
    { unfold to_csv. rewrite <- map_app. apply Permutation_map.
      apply sort_values_perm. }
    split; [exact P|].
    intros r Hr Ht. apply (Permutation_in _ P) in Hr.
    apply in_app_or in Hr. destruct Hr as [Hr|Hr]; [|assumption].
    apply (in_load_cache _ _ _ _ El) in Hr.
    destruct Hr as (rows & _ & _ & Hge). lia.
  - reflexivity.
  - intros Hwin.
    rewrite (requests_run None STATION_IDS START_DATE END_DATE [] eq_refl).
    destruct (date_range_head START_DATE (END_DATE - hour)) as [rest Er];
      [lia|].
    induction STATION_IDS as [|s ids IH]; [reflexivity|].
    cbn [flat_map map]. rewrite IH, calls_alone, missing_dates_of_empty, Er.
    reflexivity.
Qed.


End Properties.

(** * The routine on concrete caches and services *)

Import Scenario.

(** C1. The cache holds 08:00 and 09:00 of station 100, the window is
    06:00 to 10:00 and the service answers the request from 06:00 with
    every hour: the written file has two rows of station 100 at 08:00,
    and its keys are not pairwise distinct. *)
Theorem merge_keeps_both_rows_of_an_hour :
  exists w,
    status (update_and_save_station_data full_service stale_cache [100]
              (clock 6) (clock 10)) = Wrote w
    /\ length (filter (fun r => (entityId r =? 100)
                                && (time_utc r =? clock 8)) w) = 2%nat
    /\ ~ NoDup (map key w).
Proof.
  eexists. split; [vm_compute; reflexivity|]. split; [reflexivity|].
  intros H.
  apply NoDup_cons_iff in H. destruct H as [_ H].
  apply NoDup_cons_iff in H. destruct H as [_ H].
  apply NoDup_cons_iff in H. destruct H as [H _].
  apply H. left. reflexivity.
Qed.

(** C2. In the same scenario the written file holds six rows of
    station 100, not four: the stale rows of 08:00 and 09:00 stay, each
    followed by the fetched row of the same hour. *)
Theorem stale_rows_survive_the_merge :
  status (update_and_save_station_data full_service stale_cache [100]
            (clock 6) (clock 10))
  = Wrote [reading 100 (clock 6) 106; reading 100 (clock 7) 107;
           reading 100 (clock 8) 1; reading 100 (clock 8) 108;
           reading 100 (clock 9) 2; reading 100 (clock 9) 109].
Proof. vm_compute. reflexivity. Qed.

(** C3. The record of station 100 starts at 07:00, the window at 06:00,
    and there is no cache file. The first run writes 07:00 to 09:00;
    the second run, on that file and with the same answers, requests
    from 06:00 again and writes every row twice. *)
Theorem second_run_appends_again :
  let run f :=
    update_and_save_station_data late_service f [100] (clock 6) (clock 10) in
  let first := file_after None (run None) in
  let second := file_after first (run first) in
  first = Some [reading 100 (clock 7) 107; reading 100 (clock 8) 108;
                reading 100 (clock 9) 109]
  /\ second = Some [reading 100 (clock 7) 107; reading 100 (clock 7) 107;
                    reading 100 (clock 8) 108; reading 100 (clock 8) 108;
                    reading 100 (clock 9) 109; reading 100 (clock 9) 109]
  /\ second <> first.
Proof.
  vm_compute. split; [reflexivity|]. split; [reflexivity|]. discriminate.
Qed.

(** C4. An answer whose entity id the pattern does not match parses
    into rows with the empty string as [entityId]; the cast of line 250
    is outside the [try], so the call ends with a [ValueError] and
    writes nothing. *)
Theorem unmatched_entity_id_raises :
  create_dataframe_from_api_data
    (body "urn:ngsi-ld:BikeHireDockingStation:100"%string [clock 6])
  = Ok [(0%nat, mkRow (Some ""%string) (clock 6) [("availableBikeNumber"%string, 106)])]
  /\ update_and_save_station_data foreign_service None [100]
       (clock 6) (clock 10)
     = mkOutcome [(100, clock 6, clock 10)] (Raised ValueError).
Proof. split; vm_compute; reflexivity. Qed.

(** C5. The cache file exists without rows, as the routine itself
    leaves it after a 200 answer without any hour: every hour of the
    window is absent for station 100, yet the call ends with the
    [TypeError] of line 209 and sends no request. *)
Theorem header_only_cache_raises_before_any_request :
  file_after (Some [reading 100 (clock 5) 1])
    (update_and_save_station_data silent_service
       (Some [reading 100 (clock 5) 1]) [100] (clock 6) (clock 10))
  = Some []
  /\ gap (value := Z) (Some []) (clock 6) (clock 10) 100 (clock 6)
  /\ update_and_save_station_data full_service (Some []) [100]
       (clock 6) (clock 10)
     = mkOutcome [] (Raised TypeError).
Proof.
  split; [vm_compute; reflexivity|]. split; [|reflexivity].
  split.
  - exists 0. split; [lia|]. split; vm_compute; [reflexivity | discriminate].
  - intros (rows & r & E & Hr & _). inversion E; subst rows. destruct Hr.
Qed.

(** C6 at the stations 200, 100, where the service has no record of
    station 200: station 100 is requested from 06:00 and its row of
    06:00 is in the written file. *)
Lemma station_failure_is_isolated_witness :
  (forall t,
      In (200, t, clock 10)
        (requests (update_and_save_station_data full_service stale_cache
                     ([] ++ 200 :: [100]) (clock 6) (clock 10))) ->
      station_failure (full_service 200 t (clock 10)))
  /\ In (100, clock 6, clock 10)
       (requests (update_and_save_station_data full_service stale_cache
                    ([] ++ 200 :: [100]) (clock 6) (clock 10)))
  /\ exists w,
      status (update_and_save_station_data full_service stale_cache
                ([] ++ 200 :: [100]) (clock 6) (clock 10)) = Wrote w
      /\ In (reading 100 (clock 6) 106) w.
Proof.
  assert (Hfail : forall t,
             In (200, t, clock 10)
               (requests (update_and_save_station_data full_service
                            stale_cache ([] ++ 200 :: [100])
                            (clock 6) (clock 10))) ->
             station_failure (full_service 200 t (clock 10))).
  { intros t _. right. left. reflexivity. }
  destruct (station_failure_is_isolated Z full_service stale_cache [] [100]
              200 (clock 6) (clock 10) Hfail)
    as (_ & _ & _ & _ & Hserved & Hwritten).
  split; [exact Hfail|].
  assert (Hreq : In (100, clock 6, clock 10)
            (requests (update_and_save_station_data full_service stale_cache
                         ([] ++ 200 :: [100]) (clock 6) (clock 10)))).
  { apply Hserved.
    - left. reflexivity.
    - discriminate.
    - split.
      + exists 0. split; [lia|].
        split; vm_compute; [reflexivity | discriminate].
      + intros (rows & r & E & Hr & _ & Ht). inversion E; subst rows.
        destruct Hr as [<-|[<-|[]]]; vm_compute in Ht; discriminate.
    - intros u [(k & Hk & -> & _) _]. unfold hour. lia. }
  split; [exact Hreq|].
  destruct (Hwritten 100 (clock 6)
              (body urn100 (date_range (clock 6) (clock 10 - hour)))
              (labelled
                 (map (fun t => mkRow (Some "100"%string) t
                                  [("availableBikeNumber"%string,
                                    100 + t / hour)])
                    (date_range (clock 6) (clock 10 - hour))))
              Hreq eq_refl) as [_ Hw]; [vm_compute; reflexivity|].
  edestruct Hw as (w & Hst & Hrows); [vm_compute; reflexivity|].
  exists w. split; [exact Hst|].
  destruct (Hrows 0%nat
              (mkRow (Some "100"%string) (clock 6)
                 [("availableBikeNumber"%string, 106)]))
    as (n & En & Hin); [vm_compute; tauto|].
  vm_compute in En. inversion En; subst n. exact Hin.
Defined.



(** C8 on the file written in the 08:00-09:00 scenario. *)
Lemma written_file_sorted_and_reindexed_witness :
  let w := [reading 100 (clock 6) 106; reading 100 (clock 7) 107;
            reading 100 (clock 8) 1; reading 100 (clock 8) 108;
            reading 100 (clock 9) 2; reading 100 (clock 9) 109] in
  status (update_and_save_station_data full_service stale_cache [100]
            (clock 6) (clock 10)) = Wrote w
  /\ StronglySorted key_le w
  /\ exists old combined,
      load_cache stale_cache (clock 6) = Ok old
      /\ combined_data_temp old
           (accumulated full_service stale_cache [100] (clock 6) (clock 10))
         = Ok combined
      /\ w = to_csv combined
      /\ map fst combined = seq 0 (length w).
Proof.
  intros w.
  assert (H : status (update_and_save_station_data full_service stale_cache
                        [100] (clock 6) (clock 10)) = Wrote w)
    by (vm_compute; reflexivity).
  split; [exact H|].
  exact (written_file_sorted_and_reindexed Z full_service stale_cache [100]
           (clock 6) (clock 10) w H).
Defined.


(** X18 in the 08:00-09:00 scenario: one request, from 06:00, the
    earliest hour the cache lacks. *)
Lemma fetch_once_from_earliest_gap_witness :
  exists t,
    requests (update_and_save_station_data full_service stale_cache [100]
                (clock 6) (clock 10)) = [(100, t, clock 10)]
    /\ t = clock 6
    /\ gap stale_cache (clock 6) (clock 10) 100 t
    /\ forall u, gap stale_cache (clock 6) (clock 10) 100 u -> t <= u.
Proof.
  assert (Hfile : stale_cache <> Some []) by discriminate.
  destruct (fetch_once_from_earliest_gap Z full_service stale_cache [100]
              (clock 6) (clock 10) Hfile) as [(req & Hreq & Hspec) _].
  cbn [flat_map] in Hreq. rewrite app_nil_r in Hreq.
  destruct (Hspec 100) as [[Hnil _] | (t & Ht & Hg & Hmin)].
  - rewrite Hnil in Hreq. vm_compute in Hreq. discriminate.
  - exists t. rewrite Ht in Hreq. split; [exact Hreq|].
    split; [|split; assumption].
    vm_compute in Hreq. inversion Hreq. reflexivity.
Defined.

(** C9 on a cache with a row of 05:00 and a window from 06:00: the
    written file is the row of 08:00 and the fetched rows. *)
Lemma cached_rows_before_start_dropped_witness :
  let file := Some [reading 100 (clock 5) 1; reading 100 (clock 8) 2] in
  let w := [reading 100 (clock 6) 106; reading 100 (clock 7) 107;
            reading 100 (clock 8) 2; reading 100 (clock 8) 108;
            reading 100 (clock 9) 109] in
  status (update_and_save_station_data full_service file [100]
            (clock 6) (clock 10)) = Wrote w
  /\ (exists old new,
         load_cache file (clock 6) = Ok old
         /\ astype_entityId
              (concat (accumulated full_service file [100] (clock 6) (clock 10)))
            = Ok new
         /\ Permutation w (to_csv old ++ to_csv new)
         /\ forall r, In r w -> time_utc r < clock 6 -> In r (to_csv new))
  /\ requests (update_and_save_station_data full_service None [100; 200]
                 (clock 6) (clock 10))
     = map (fun s => (s, clock 6, clock 10)) [100; 200].
Proof.
  intros file w.
  assert (H : status (update_and_save_station_data full_service file [100]
                        (clock 6) (clock 10)) = Wrote w)
    by (vm_compute; reflexivity).
  split; [exact H|]. split.
  - exact (proj1 (proj2 (cached_rows_before_start_dropped Z full_service file
                           [100] (clock 6) (clock 10))) w H).
  - apply (proj2 (proj2 (proj2 (cached_rows_before_start_dropped Z
                                  full_service None [100; 200]
                                  (clock 6) (clock 10))))).
    vm_compute. discriminate.
Defined.

(** ** The parser and the window on small inputs *)

Example re_search_urn : re_search urn100 = Some "100"%string.
Proof. reflexivity. Qed.

Example re_search_leftmost_match :
  re_search "KielRegion:x/KielRegion:12ab"%string = Some "12"%string.
Proof. reflexivity. Qed.

Example re_search_no_digit : re_search "urn:KielRegion:"%string = None.
Proof. reflexivity. Qed.

Example astype_int64_leading_zero :
  astype_int64 (Some "0123"%string) = Ok 123.
Proof. reflexivity. Qed.

Example astype_int64_too_large :
  astype_int64 (Some "9223372036854775808"%string) = Raise OverflowError.
Proof. reflexivity. Qed.

Example astype_int64_too_many_digits :
  astype_int64 (Some (string_of_list_ascii (repeat "9"%char 4301)))
  = Raise ValueError
  /\ astype_int64 (Some (string_of_list_ascii (repeat "9"%char 4300)))
     = Raise OverflowError.
Proof. split; vm_compute; reflexivity. Qed.

Example load_cache_of_a_file_without_rows :
  load_cache (value := Z) (Some []) (clock 6) = Raise TypeError
  /\ load_cache (value := Z) None (clock 6) = Ok []
  /\ load_cache (Some [reading 100 (clock 5) 1]) (clock 6) = Ok [].
Proof. repeat split. Qed.

Example parse_attribute_named_time_utc :
  create_dataframe_from_api_data
    (mkApiData (Some [clock 6]) (Some urn100)
       (Some [mkAttribute (Some "time_utc"%string) (Some [5]);
              mkAttribute (Some "availableBikeNumber"%string) (Some [7])])
       [])
  = Ok [(0%nat, mkRow (Some "100"%string) (clock 6)
                  [("availableBikeNumber"%string, 7)])].
Proof. reflexivity. Qed.

Example date_range_of_the_window :
  date_range (clock 6) (clock 10 - hour)
  = [clock 6; clock 7; clock 8; clock 9].
Proof. reflexivity. Qed.

Example date_range_of_an_empty_window :
  date_range (clock 6) (clock 6 - hour) = [].
Proof. reflexivity. Qed.

Example parse_length_mismatch :
  create_dataframe_from_api_data
    (mkApiData (Some [clock 6; clock 7]) (Some urn100)
       (Some [mkAttribute (Some "availableBikeNumber"%string) (Some [1])])
       [])
  = Raise ValueError.
Proof. reflexivity. Qed.

Example parse_missing_attribute_name :
  create_dataframe_from_api_data
    (mkApiData (Some [clock 6]) (Some urn100)
       (Some [mkAttribute None (Some [1])]) [])
  = Raise KeyError.
Proof. reflexivity. Qed.

(** * Further properties of the parser *)

Lemma strip_prefix_append (p s r : string) :
  strip_prefix p s = Some r -> s = (p ++ r)%string.
Proof.
  revert s; induction p as [|a p IH]; intros s; simpl.
  - intros H; inversion H; reflexivity.
  - destruct s as [|b s]; [discriminate|].
    destruct (Ascii.eqb a b) eqn:E; [|discriminate].
    apply Ascii.eqb_eq in E. subst b. intros H. now rewrite (IH s H).
Qed.

Lemma strip_prefix_of_append (p r : string) :
  strip_prefix p (p ++ r)%string = Some r.
Proof.
  induction p as [|a p IH]; simpl; [reflexivity|].
  now rewrite Ascii.eqb_refl.
Qed.

Lemma take_digits_split (r : string) :
  exists post,
    r = (take_digits r ++ post)%string
    /\ all_digits (take_digits r) = true
    /\ take_digits post = EmptyString.
Proof.
  induction r as [|c r (post & E & Hd & Hp)]; simpl.
  - exists EmptyString. repeat split.
  - destruct (is_digit c) eqn:Ec; simpl.
    + exists post. rewrite Ec, Hd. repeat split; [|assumption].
      now rewrite <- E.
    + exists (String c r). simpl. rewrite Ec. repeat split.
Qed.

Lemma match_here_sound (s d : string) :
  match_here s = Some d ->
  d <> EmptyString
  /\ all_digits d = true
  /\ exists post,
      s = ("KielRegion:" ++ d ++ post)%string
      /\ take_digits post = EmptyString.
Proof.
  unfold match_here.
  destruct (strip_prefix "KielRegion:" s) as [r|] eqn:Es; [|discriminate].
  apply strip_prefix_append in Es.
  destruct (take_digits_split r) as (post & Er & Hd & Hp).
  destruct (take_digits r) as [|c d'] eqn:Et; [discriminate|].
  intros H; inversion H; subst d.
  split; [discriminate|]. split; [assumption|].
  exists post. split; [|assumption]. rewrite Es. now rewrite <- Er.
Qed.

(** X1. On an entity id whose characters are all below 256, what
    [re.search] extracts is a non-empty string of the digits '0' to '9'
    that stands in the entity id right after the literal 'KielRegion:',
    and it is the whole run of digits there. *)
Theorem re_search_sound (s d : string) :
  re_search s = Some d ->
  d <> EmptyString
  /\ all_digits d = true
  /\ exists pre post,
      s = (pre ++ "KielRegion:" ++ d ++ post)%string
      /\ take_digits post = EmptyString.
Proof.
  induction s as [|c s IH].
  - simpl. discriminate.
  - intros H. cbn [re_search] in H.
    destruct (match_here (String c s)) as [d'|] eqn:Em.
    + inversion H; subst d'. apply match_here_sound in Em.
      destruct Em as (Hn & Hd & post & E & Hp).
      split; [assumption|]. split; [assumption|].
      exists EmptyString, post. split; assumption.
    + destruct (IH H) as (Hn & Hd & pre & post & E & Hp).
      split; [assumption|]. split; [assumption|].
      exists (String c pre), post. split; [|assumption].
      simpl. now rewrite E.
Qed.

Lemma re_search_sound_witness :
  re_search urn100 = Some "100"%string
  /\ "100"%string <> EmptyString
  /\ all_digits "100" = true
  /\ exists pre post,
      urn100 = (pre ++ "KielRegion:" ++ "100" ++ post)%string
      /\ take_digits post = EmptyString.
Proof.
  split; [reflexivity|].
  apply (re_search_sound urn100 "100"). reflexivity.
Defined.

(** X2. An entity id that holds 'KielRegion:' followed by a digit
    anywhere is matched: the parser falls back to the empty id only
    when there is no such place. *)
Theorem re_search_complete (pre rest : string) (c : ascii) :
  is_digit c = true ->
  re_search (pre ++ "KielRegion:" ++ String c rest)%string <> None.
Proof.
  intros Hc. induction pre as [|a pre IH].
  - change (EmptyString ++ "KielRegion:" ++ String c rest)%string
      with ("KielRegion:" ++ String c rest)%string.
    destruct (re_search ("KielRegion:" ++ String c rest)%string) eqn:E;
      [discriminate|].
    exfalso. revert E.
    change (re_search ("KielRegion:" ++ String c rest)%string)
      with (match match_here ("KielRegion:" ++ String c rest)%string with
            | Some d => Some d
            | None => re_search ("ielRegion:" ++ String c rest)%string
            end).
    unfold match_here. rewrite strip_prefix_of_append.
    simpl take_digits. rewrite Hc. discriminate.
  - change (String a pre ++ "KielRegion:" ++ String c rest)%string
      with (String a (pre ++ "KielRegion:" ++ String c rest))%string.
    cbn [re_search].
    destruct (match_here _); [discriminate | exact IH].
Qed.

Lemma re_search_complete_witness :
  is_digit "7"%char = true
  /\ re_search ("station/" ++ "KielRegion:" ++ String "7"%char "x")%string
     <> None.
Proof.
  split; [reflexivity|].
  apply (re_search_complete "station/" "x" "7"%char). reflexivity.
Defined.

Lemma digits_acc_lower (s : string) (acc : Z) :
  all_digits s = true -> 0 <= acc -> acc <= digits_acc acc s.
Proof.
  revert acc; induction s as [|c s IH]; intros acc;
    cbn [digits_acc all_digits]; [lia|].
  intros H Hacc. apply andb_true_iff in H. destruct H as [Hc Hs].
  unfold is_digit in Hc. cbv zeta in Hc.
  apply andb_true_iff in Hc. destruct Hc as [H1 H2].
  apply Z.leb_le in H1. apply Z.leb_le in H2.
  assert (H : 0 <= 10 * acc + digit_val c) by (unfold digit_val; lia).
  specialize (IH _ Hs H). unfold digit_val in *. lia.
Qed.

Lemma re_search_digits (s d : string) :
  re_search s = Some d -> d <> EmptyString /\ all_digits d = true.
Proof.
  induction s as [|c s IH].
  - simpl. discriminate.
  - intros H. cbn [re_search] in H.
    destruct (match_here (String c s)) as [d'|] eqn:Em.
    + inversion H; subst d'. apply match_here_sound in Em. tauto.
    + exact (IH H).
Qed.

(** X3. The cast to int64 of an id that the pattern extracted, when
    the id has at most 4300 digits, never raises a [ValueError]: it
    gives the number the digits denote, which is not negative, or an
    [OverflowError] when that number is above the largest int64.  On an
    extracted id of more than 4300 digits the cast raises a
    [ValueError]. *)
Theorem extracted_id_casts (s d : string) :
  re_search s = Some d ->
  ((String.length d <= int_max_str_digits)%nat ->
   (astype_int64 (Some d) = Ok (digits_acc 0 d)
    /\ 0 <= digits_acc 0 d <= int64_max)
   \/ (astype_int64 (Some d) = Raise OverflowError
       /\ int64_max < digits_acc 0 d))
  /\ ((int_max_str_digits < String.length d)%nat ->
      astype_int64 (Some d) = Raise ValueError).
Proof.
  intros H. apply re_search_digits in H. destruct H as [Hn Hd].
  pose proof (digits_acc_lower d 0 Hd (Z.le_refl 0)) as Hlow.
  unfold astype_int64. destruct d as [|c d]; [contradiction|].
  rewrite Hd. split.
  - intros Hlen. apply Nat.ltb_ge in Hlen. rewrite Hlen. cbv zeta.
    destruct (digits_acc 0 (String c d) <=? int64_max) eqn:E.
    + apply Z.leb_le in E. left. split; [reflexivity | lia].
    + apply Z.leb_gt in E. right. split; [reflexivity | lia].
  - intros Hlen. apply Nat.ltb_lt in Hlen. now rewrite Hlen.
Qed.

Lemma extracted_id_casts_witness :
  re_search urn100 = Some "100"%string
  /\ (String.length "100" <= int_max_str_digits)%nat
  /\ ((astype_int64 (Some "100"%string) = Ok (digits_acc 0 "100")
       /\ 0 <= digits_acc 0 "100" <= int64_max)
      \/ (astype_int64 (Some "100"%string) = Raise OverflowError
          /\ int64_max < digits_acc 0 "100")).
Proof.
  split; [reflexivity|].
  assert (Hlen : (String.length "100" <= int_max_str_digits)%nat)
    by (apply Nat.leb_le; reflexivity).
  split; [exact Hlen|].
  apply (proj1 (extracted_id_casts urn100 "100" eq_refl)). exact Hlen.
Defined.

Lemma combine_seq_snd_of_length {A : Type} (l : list A) (a n : nat) :
  n = length l -> map snd (combine (seq a n) l) = l.
Proof. intros ->. apply combine_seq_snd. Qed.

Lemma combine_seq_fst_of_length {A : Type} (l : list A) (a n : nat) :
  n = length l -> map fst (combine (seq a n) l) = seq a n.
Proof. intros ->. apply combine_seq_fst. Qed.

Section Parser.

Variable value : Type.

Lemma attribute_dict_raises (attrs : list (Attribute value))
    (acc : list (string * list value)) (e : exn) :
  attribute_dict value acc attrs = Raise e ->
  e = KeyError /\ Exists (fun a => attrName value a = None) attrs.
Proof.
  revert acc; induction attrs as [|a attrs IH]; intros acc; simpl;
    [discriminate|].
  destruct (attrName value a) as [name|] eqn:En.
  - intros H. destruct (IH _ H) as [He Hex]. split; [assumption|].
    now apply Exists_cons_tl.
  - intros H. inversion H. split; [reflexivity|]. now apply Exists_cons_hd.
Qed.

Lemma attribute_dict_named (attrs : list (Attribute value))
    (acc d : list (string * list value)) :
  attribute_dict value acc attrs = Ok d ->
  Forall (fun a => attrName value a <> None) attrs.
Proof.
  revert acc; induction attrs as [|a attrs IH]; intros acc; simpl;
    [constructor|].
  destruct (attrName value a) as [name|] eqn:En; [|discriminate].
  intros H. constructor; [congruence | exact (IH _ H)].
Qed.

Lemma frame_length_raises (d : list (string * list value)) (e : exn) :
  frame_length value d = Raise e -> e = ValueError.
Proof.
  unfold frame_length. destruct d as [|[k vs] d]; [discriminate|].
  destruct (forallb _ d); [discriminate|]. intros H; now inversion H.
Qed.

(** X4. A frame the parser returns has one row per entry of 'index',
    in the order of 'index' and labelled 0, 1, ...; all its rows carry
    one and the same [entityId] cell, which is NaN or the id taken from
    'entityId' (the digits after 'KielRegion:', else the empty
    string). *)
Theorem parsed_frame_follows_index (data : ApiData value)
    (df : DataFrame value (option string)) :
  create_dataframe_from_api_data data = Ok df ->
  exists ts id,
    d_index data = Some ts
    /\ d_entityId data = Some id
    /\ map fst df = seq 0 (length ts)
    /\ map (fun ir => time_utc (snd ir)) df = ts
    /\ exists c,
        Forall (fun ir => entityId (snd ir) = c) df
        /\ (c = None
            \/ c = Some match re_search id with
                        | Some d => d
                        | None => EmptyString
                        end).
Proof.
  unfold create_dataframe_from_api_data.
  destruct (d_index data) as [ts|]; [|discriminate].
  destruct (d_entityId data) as [id|]; [|discriminate].
  destruct (d_attributes data) as [attrs|]; [|discriminate].
  destruct (attribute_dict value [] attrs) as [cols|e]; [|discriminate].
  simpl. destruct (frame_length value cols) as [n|e]; [|discriminate].
  simpl. destruct (Nat.eqb n 0).
  - intros H; inversion H; subst df. exists ts, id.
    split; [reflexivity|]. split; [reflexivity|].
    unfold labelled. rewrite combine_seq_fst, length_map.
    split; [reflexivity|]. split.
    + rewrite <- (map_map snd (fun r : Row value (option string) => time_utc r)).
      rewrite combine_seq_snd_of_length by (now rewrite length_map).
      rewrite map_map. simpl. apply map_id.
    + exists None. split; [|now left].
      apply Forall_forall. intros [i r] Hin. apply in_combine_r in Hin.
      apply in_map_iff in Hin. destruct Hin as (t & <- & _). reflexivity.
  - destruct (Nat.eqb (length ts) n) eqn:En; [|discriminate].
    apply Nat.eqb_eq in En. subst n.
    intros H; inversion H; subst df. clear H. exists ts, id.
    split; [reflexivity|]. split; [reflexivity|].
    match goal with
    | |- context [map ?g (combine (seq 0 (length ts)) ts)] => set (f := g)
    end.
    assert (Hl : length ts = length (map f (combine (seq 0 (length ts)) ts))).
    { rewrite length_map, length_combine, length_seq. now rewrite Nat.min_id. }
    split; [|split].
    + now apply combine_seq_fst_of_length.
    + rewrite <- (map_map snd (fun r : Row value (option string) => time_utc r)).
      rewrite combine_seq_snd_of_length by exact Hl.
      unfold f. rewrite map_map. simpl. apply combine_seq_snd.
    + eexists. split; [|right; reflexivity].
      apply Forall_forall. intros [i r] Hin. apply in_combine_r in Hin.
      apply in_map_iff in Hin. destruct Hin as (t & <- & _). reflexivity.
Qed.

(** X5. The parser raises nothing but [ValueError] and [KeyError], and
    a [KeyError] only when the three keys are there and an entry of
    'attributes' has no 'attrName'; when it returns a frame, every
    entry has one. *)
Theorem parser_exceptions (data : ApiData value) :
  (forall e,
      create_dataframe_from_api_data data = Raise e ->
      e = ValueError
      \/ (e = KeyError
          /\ d_index data <> None /\ d_entityId data <> None
          /\ exists attrs,
              d_attributes data = Some attrs
              /\ Exists (fun a => attrName value a = None) attrs))
  /\ (forall df,
         create_dataframe_from_api_data data = Ok df ->
         exists attrs,
           d_attributes data = Some attrs
           /\ Forall (fun a => attrName value a <> None) attrs).
Proof.
  unfold create_dataframe_from_api_data.
  destruct (d_index data) as [ts|].
  2:{ split; [intros e H; inversion H; now left | discriminate]. }
  destruct (d_entityId data) as [id|].
  2:{ split; [intros e H; inversion H; now left | discriminate]. }
  destruct (d_attributes data) as [attrs|].
  2:{ split; [intros e H; inversion H; now left | discriminate]. }
  destruct (attribute_dict value [] attrs) as [cols|e0] eqn:Ea; simpl.
  - split.
    + intros e H. left.
      destruct (frame_length value cols) as [n|e1] eqn:El; simpl in H.
      * destruct (Nat.eqb n 0); [discriminate|].
        destruct (Nat.eqb (length ts) n); [discriminate|]. now inversion H.
      * inversion H; subst e1. exact (frame_length_raises _ _ El).
    + intros df _. exists attrs. split; [reflexivity|].
      exact (attribute_dict_named _ _ _ Ea).
  - split; [|discriminate].
    intros e H. inversion H; subst e0. right.
    destruct (attribute_dict_raises _ _ _ Ea) as [He Hex].
    split; [assumption|]. split; [discriminate|]. split; [discriminate|].
    exists attrs. split; [reflexivity | assumption].
Qed.

Lemma single_column_rows (c : option string) (a : string) (ts : list Z) :
  forall (vs pre : list value),
    length vs = length ts ->
    map (fun it : nat * Z =>
           mkRow c (snd it)
             (row_cells value
                (filter (fun kv => negb (overwritten_column (fst kv)))
                   [(a, pre ++ vs)])
                (fst it)))
      (combine (seq (length pre) (length ts)) ts)
    = map (fun tv : Z * value =>
             mkRow c (fst tv)
               (if overwritten_column a then [] else [(a, snd tv)]))
        (combine ts vs).
Proof.
  cbn [filter fst]. destruct (overwritten_column a); cbn [negb].
  - induction ts as [|t ts IH]; intros vs pre Hl; [reflexivity|].
    destruct vs as [|v vs]; [discriminate|].
    simpl in Hl. injection Hl as Hl. cbn [length seq combine map fst snd].
    f_equal. specialize (IH vs (pre ++ [v]) Hl).
    rewrite length_app in IH. simpl in IH. rewrite Nat.add_1_r in IH.
    exact IH.
  - induction ts as [|t ts IH]; intros vs pre Hl; [reflexivity|].
    destruct vs as [|v vs]; [discriminate|].
    simpl in Hl. injection Hl as Hl. simpl. f_equal.
    + unfold row_cells. simpl.
      rewrite nth_error_app2 by apply Nat.le_refl.
      rewrite Nat.sub_diag. reflexivity.
    + specialize (IH vs (pre ++ [v]) Hl).
      rewrite <- app_assoc in IH. simpl in IH.
      rewrite length_app in IH. simpl in IH.
      rewrite Nat.add_1_r in IH. exact IH.
Qed.

(** X6. A body with every key and a single attribute whose values are
    as many as the entries of 'index' parses into one row per entry,
    the [i]-th with the [i]-th instant and the [i]-th value, whatever
    other keys the body has; an attribute named 'entityId' or
    'time_utc' leaves no cell, lines 162-163 assign its column. *)
Theorem parse_single_attribute (ts : list Z) (id a : string)
    (vs : list value) (other : list string) :
  length vs = length ts ->
  create_dataframe_from_api_data
    (mkApiData (Some ts) (Some id)
       (Some [mkAttribute (Some a) (Some vs)]) other)
  = Ok (labelled
          (map (fun tv : Z * value =>
                  mkRow (Some match re_search id with
                              | Some d => d
                              | None => EmptyString
                              end) (fst tv)
                    (if overwritten_column a then [] else [(a, snd tv)]))
             (combine ts vs))).
Proof.
  intros Hl. unfold create_dataframe_from_api_data.
  cbn [d_index d_entityId d_attributes attribute_dict attrName values
       dict_set bind frame_length forallb].
  rewrite Hl.
  destruct (Nat.eqb (length ts) 0) eqn:E0.
  - apply Nat.eqb_eq in E0. destruct ts; [|discriminate].
    destruct vs; [|discriminate]. reflexivity.
  - rewrite Nat.eqb_refl. f_equal. unfold labelled.
    rewrite length_map, length_combine, Hl, Nat.min_id.
    f_equal. exact (single_column_rows _ a ts vs [] Hl).
Qed.

End Parser.

Lemma parsed_frame_follows_index_witness :
  exists df,
    create_dataframe_from_api_data
      (body urn100 [clock 6; clock 7]) = Ok df
    /\ exists ts id,
        d_index (body urn100 [clock 6; clock 7]) = Some ts
        /\ d_entityId (body urn100 [clock 6; clock 7]) = Some id
        /\ map fst df = seq 0 (length ts)
        /\ map (fun ir => time_utc (snd ir)) df = ts
        /\ exists c,
            Forall (fun ir => entityId (snd ir) = c) df
            /\ (c = None
                \/ c = Some match re_search id with
                            | Some d => d
                            | None => EmptyString
                            end).
Proof.
  eexists. split; [vm_compute; reflexivity|].
  apply (parsed_frame_follows_index Z (body urn100 [clock 6; clock 7])).
  vm_compute. reflexivity.
Defined.

Lemma parse_single_attribute_witness :
  length [106; 107] = length [clock 6; clock 7]
  /\ create_dataframe_from_api_data
       (mkApiData (Some [clock 6; clock 7]) (Some urn100)
          (Some [mkAttribute (Some "availableBikeNumber"%string)
                   (Some [106; 107])]) [])
     = Ok (labelled
             (map (fun tv : Z * Z =>
                     mkRow (Some match re_search urn100 with
                                 | Some d => d
                                 | None => EmptyString
                                 end) (fst tv)
                       (if overwritten_column "availableBikeNumber"
                        then []
                        else [("availableBikeNumber"%string, snd tv)]))
                (combine [clock 6; clock 7] [106; 107])))
  /\ create_dataframe_from_api_data
       (mkApiData (Some [clock 6]) (Some urn100)
          (Some [mkAttribute (Some "entityId"%string) (Some [5])]) [])
     = Ok [(0%nat, mkRow (Some "100"%string) (clock 6) [])].
Proof.
  split; [reflexivity|]. split.
  - apply (parse_single_attribute Z [clock 6; clock 7] urn100
             "availableBikeNumber"%string [106; 107] []).
    reflexivity.
  - apply (parse_single_attribute Z [clock 6] urn100 "entityId"%string [5] []).
    reflexivity.
Defined.

(** * Further properties of the synchronisation *)

Lemma mapM_app {A B : Type} (f : A -> result B) (l1 l2 : list A)
    (r1 r2 : list B) :
  mapM f l1 = Ok r1 -> mapM f l2 = Ok r2 -> mapM f (l1 ++ l2) = Ok (r1 ++ r2).
Proof.
  revert r1; induction l1 as [|a l1 IH]; intros r1; simpl.
  - intros H; inversion H; subst. now intros ->.
  - destruct (f a) as [b|e]; simpl; [|discriminate].
    destruct (mapM f l1) as [bs|e]; simpl; [|discriminate].
    intros H H2; inversion H; subst. now rewrite (IH bs eq_refl H2).
Qed.

Lemma mapM_raises {A B : Type} (f : A -> result B) (l : list A) (e : exn) :
  mapM f l = Raise e -> exists a, In a l /\ f a = Raise e.
Proof.
  induction l as [|a l IH]; simpl; [discriminate|].
  destruct (f a) as [b|e'] eqn:Ea; simpl.
  - destruct (mapM f l) as [bs|e'']; simpl; [discriminate|].
    intros H; inversion H; subst. destruct (IH eq_refl) as (x & Hx & Ex).
    exists x. split; [now right | assumption].
  - intros H; inversion H; subst. exists a. split; [now left | assumption].
Qed.

Lemma mapM_all_Ok {A B : Type} (f : A -> result B) (l : list A) :
  (forall a, In a l -> exists b, f a = Ok b) -> exists r, mapM f l = Ok r.
Proof.
  induction l as [|a l IH]; intros H; simpl; [now exists []|].
  destruct (H a (or_introl eq_refl)) as [b ->].
  destruct IH as [r ->]; [intros x Hx; apply H; now right|].
  simpl. now eexists.
Qed.

Lemma mapM_length {A B : Type} (f : A -> result B) (l : list A) (r : list B) :
  mapM f l = Ok r -> length r = length l.
Proof.
  intros H. apply mapM_Ok_Forall2 in H.
  induction H; simpl; congruence.
Qed.

Lemma astype_int64_raises (c : option string) (e : exn) :
  astype_int64 c = Raise e -> e = ValueError \/ e = OverflowError.
Proof.
  unfold astype_int64. destruct c as [[|a s]|].
  - intros H; inversion H; now left.
  - destruct (all_digits (String a s)).
    + destruct (Nat.ltb _ _); [intros H; inversion H; now left|].
      cbv zeta. destruct (_ <=? _); [discriminate|].
      intros H; inversion H; now right.
    + intros H; inversion H; now left.
  - intros H; inversion H; now left.
Qed.

Lemma in_flat_map_head {A B : Type} (f : A -> list B) (l : list A) (b : B)
    (r : list B) :
  flat_map f l = b :: r -> exists a, In a l /\ In b (f a).
Proof.
  intros H. apply in_flat_map. rewrite H. now left.
Qed.

Lemma NoDup_flat_map_tagged {A B : Type} (f : A -> list (A * B)) (l : list A) :
  NoDup l ->
  (forall a, NoDup (f a)) ->
  (forall a x, In x (f a) -> fst x = a) ->
  NoDup (flat_map f l).
Proof.
  intros Hl Hf Htag. induction Hl as [|a l Ha Hl IH]; simpl; [constructor|].
  apply NoDup_app; [apply Hf | exact IH |].
  intros x Hx Hx'. apply in_flat_map in Hx'. destruct Hx' as (b & Hb & Hx').
  apply Htag in Hx. apply Htag in Hx'.
  apply Ha. rewrite <- Hx, Hx'. exact Hb.
Qed.

Lemma NoDup_map_filter {A B : Type} (g : A -> B) (p : A -> bool) (l : list A) :
  NoDup (map g l) -> NoDup (map g (filter p l)).
Proof.
  induction l as [|a l IH]; simpl; intros H; [constructor|].
  inversion H as [|? ? Hn Hd]; subst.
  destruct (p a); simpl; [|now apply IH].
  constructor; [|now apply IH].
  intros Hin. apply Hn. apply in_map_iff in Hin.
  destruct Hin as (x & E & Hx). apply filter_In in Hx.
  apply in_map_iff. exists x. tauto.
Qed.

Lemma StronglySorted_lt_NoDup (l : list Z) : StronglySorted Z.lt l -> NoDup l.
Proof.
  induction 1 as [|x l Hs IH Hx]; constructor; [|assumption].
  intros Hin. rewrite Forall_forall in Hx. specialize (Hx x Hin). lia.
Qed.

Section Coverage.

Variable value : Type.
Variable fetch : Z -> Z -> Z -> Response value.

Lemma parsed_is_truthy (data : ApiData value)
    (df : DataFrame value (option string)) :
  create_dataframe_from_api_data data = Ok df -> truthy data = true.
Proof.
  unfold create_dataframe_from_api_data, truthy.
  destruct (d_index data); [reflexivity | discriminate].
Qed.

Lemma outcome_eta (o : Outcome value) : o = mkOutcome (requests o) (status o).
Proof. destruct o; reflexivity. Qed.

Lemma filter_labelled {A : Type} (p : A -> bool) (l : list A) (a : nat) :
  map snd (filter (fun ir => p (snd ir)) (combine (seq a (length l)) l))
  = filter p l.
Proof.
  revert a; induction l as [|x l IH]; intros a; simpl; [reflexivity|].
  destruct (p x); simpl; now rewrite IH.
Qed.

Lemma to_csv_load_cache (rows : list (Row value Z)) (START_DATE : Z)
    (old : DataFrame value Z) :
  load_cache (Some rows) START_DATE = Ok old ->
  to_csv old = filter (fun r => START_DATE <=? time_utc r) rows.
Proof.
  intros Hl. apply load_cache_filter in Hl. destruct Hl as [_ ->].
  unfold to_csv, read_csv, labelled.
  apply (filter_labelled (fun r : Row value Z => START_DATE <=? time_utc r)).
Qed.

Lemma astype_entityId_app (df1 df2 : DataFrame value (option string))
    (n1 n2 : DataFrame value Z) :
  astype_entityId df1 = Ok n1 -> astype_entityId df2 = Ok n2 ->
  astype_entityId (df1 ++ df2) = Ok (n1 ++ n2).
Proof. apply mapM_app. Qed.

(** X7. The call ends with an exception in two places only.  At the
    load, exactly when the cache file exists without rows: a
    [TypeError], before any request.  In the cast of line 250, on a
    file that loads: a [ValueError] or an [OverflowError], raised by
    the cast on the [entityId] of some gathered row.  Either way the
    file is left as it was.  On a file that loads, when the [entityId]
    of every gathered row casts, the call does not raise. *)
Theorem run_raises_at_the_load_or_in_the_cast (file : File value)
    (STATION_IDS : list Z) (START_DATE END_DATE : Z) :
  let o := update_and_save_station_data fetch file STATION_IDS
             START_DATE END_DATE in
  let dfs := accumulated fetch file STATION_IDS START_DATE END_DATE in
  (forall e,
      status o = Raised e ->
      file_after file o = file
      /\ ((e = TypeError /\ file = Some [] /\ requests o = [])
          \/ ((e = ValueError \/ e = OverflowError)
              /\ file <> Some []
              /\ exists df ir,
                  In df dfs /\ In ir df
                  /\ astype_int64 (entityId (snd ir)) = Raise e)))
  /\ (file = Some [] -> o = mkOutcome [] (Raised TypeError))
  /\ (file <> Some [] ->
      (forall df ir,
          In df dfs -> In ir df ->
          exists n, astype_int64 (entityId (snd ir)) = Ok n) ->
      forall e, status o <> Raised e).
Proof.
  intros o dfs. subst o dfs. split; [|split].
  - intros e H. unfold file_after. rewrite H. split; [reflexivity|].
    destruct (load_cache file START_DATE) as [old|e0] eqn:El.
    + right. rewrite (status_run _ _ _ _ _ _ _ El) in H.
      destruct (accumulated fetch file STATION_IDS START_DATE END_DATE)
        as [|df dfs] eqn:Ea; [discriminate|].
      unfold combined_data_temp in H.
      destruct (astype_entityId (concat (df :: dfs))) as [new|e1] eqn:Ec;
        simpl in H; [discriminate|].
      inversion H; subst e1. unfold astype_entityId in Ec.
      apply mapM_raises in Ec. destruct Ec as (ir & Hin & Hr).
      destruct (astype_int64 (entityId (snd ir))) as [n|e1] eqn:Ei;
        simpl in Hr; [discriminate|].
      inversion Hr; subst e1.
      split; [exact (astype_int64_raises _ _ Ei)|].
      split; [exact (proj1 (load_cache_filter _ _ _ _ El))|].
      apply in_concat in Hin. destruct Hin as (df' & Hdf & Hir).
      exists df', ir. auto.
    + left. rewrite (run_load_raises _ _ _ _ _ _ _ El) in H |- *.
      simpl in H. inversion H; subst e0.
      apply load_cache_raises in El. tauto.
  - intros ->. reflexivity.
  - intros Hfile Hall e H.
    destruct (load_cache_loads _ file START_DATE Hfile) as [old El].
    rewrite (status_run _ _ _ _ _ _ _ El) in H.
    destruct (accumulated fetch file STATION_IDS START_DATE END_DATE)
      as [|df dfs] eqn:Ea; [discriminate|].
    unfold combined_data_temp in H.
    destruct (mapM_all_Ok
                (fun ir : nat * Row value (option string) =>
                   n <- astype_int64 (entityId (snd ir)) ;;
                   Ok (fst ir, mkRow n (time_utc (snd ir)) (cells (snd ir))))
                (concat (df :: dfs))) as [new Hn].
    { intros ir Hin. apply in_concat in Hin. destruct Hin as (df' & Hdf & Hir).
      destruct (Hall df' ir Hdf Hir) as [n ->]. simpl. now eexists. }
    unfold astype_entityId in H. rewrite Hn in H. discriminate.
Qed.

(** ** A service with complete records *)

Section CompleteService.

Variable START_DATE END_DATE : Z.

(** The cache as loaded. *)
Variable old : DataFrame value Z.

Local Abbreviation full := (date_range START_DATE (END_DATE - hour)).
Local Abbreviation alone :=
  (station_body fetch old full END_DATE (mkLoopState [] [])).

(** The keys a station brings in: the hours from its earliest missing
    hour on. *)
Local Abbreviation fetched_keys :=
  (fun s : Z =>
     match missing_dates old full s with
     | [] => []
     | t :: _ => map (fun u => (s, u)) (date_range t (END_DATE - hour))
     end).

Lemma fully_accumulated (l : list Z) :
  (forall s, In s l -> answers_fully fetch END_DATE s) ->
  exists news,
    astype_entityId (concat (flat_map (fun s => dataframes (alone s)) l))
    = Ok news
    /\ map key (to_csv news) = flat_map fetched_keys l.
Proof.
  induction l as [|s l IH]; intros H.
  - exists []. split; reflexivity.
  - destruct IH as (news & Hn & Hk); [intros x Hx; apply H; now right|].
    cbn [flat_map]. rewrite concat_app, dataframes_alone.
    destruct (missing_dates old full s) as [|t rest] eqn:Em.
    + exists news. split; assumption.
    + destruct (H s (or_introl eq_refl) t)
        as (data & df & new & Hf & Hc & Ha & Hkeys).
      rewrite Hf, (parsed_is_truthy _ _ Hc), Hc.
      exists (new ++ news). split.
      * cbn [concat]. rewrite app_nil_r. now apply astype_entityId_app.
      * unfold to_csv in *. rewrite !map_app, Hkeys, Hk. reflexivity.
Qed.

Lemma present_or_missing (s u : Z) :
  In u full ->
  In u (missing_dates old full s)
  \/ exists r, In r (to_csv old) /\ key r = (s, u).
Proof.
  intros Hu. unfold missing_dates.
  destruct (isin u (map (fun ir : nat * Row value Z => time_utc (snd ir))
                      (filter (fun ir => entityId (snd ir) =? s) old)))
    eqn:E.
  - right. apply isin_In in E. apply in_map_iff in E.
    destruct E as ([i r] & Et & Hin). simpl in Et.
    apply filter_In in Hin. destruct Hin as [Hin Hs]. simpl in Hs.
    apply Z.eqb_eq in Hs. exists r. split.
    + unfold to_csv. apply (in_map snd) in Hin. exact Hin.
    + unfold key. now rewrite Hs, Et.
  - left. apply filter_In. split; [assumption|]. now rewrite E.
Qed.

Lemma later_window_hour (t u : Z) :
  window_hour START_DATE END_DATE t -> window_hour START_DATE END_DATE u ->
  t <= u -> In u (date_range t (END_DATE - hour)).
Proof.
  intros (k1 & Hk1 & -> & H1) (k2 & Hk2 & -> & H2) Hle.
  apply in_date_range. exists (k2 - k1). unfold hour in *.
  split; [lia|]. split; lia.
Qed.

Lemma covered_after_merge (l : list Z) (s u : Z) :
  In s l -> In u full ->
  (exists r, In r (to_csv old) /\ key r = (s, u))
  \/ In (s, u) (flat_map fetched_keys l).
Proof.
  intros Hs Hu. destruct (present_or_missing s u Hu) as [Hm|Hp];
    [|now left].
  right. apply in_flat_map. exists s. split; [assumption|].
  destruct (missing_dates old full s) as [|t rest] eqn:Em; [destruct Hm|].
  apply in_map. apply later_window_hour.
  - apply in_date_range.
    assert (Ht : In t (missing_dates old full s)) by (rewrite Em; now left).
    unfold missing_dates in Ht. apply filter_In in Ht. tauto.
  - apply in_date_range. exact Hu.
  - unfold missing_dates in Em, Hm.
    refine (filter_head_least _ _ t rest (date_range_increasing _ _) Em u _).
    rewrite Em. exact Hm.
Qed.

End CompleteService.

Lemma NoDup_map_pair (s : Z) (l : list Z) :
  NoDup l -> NoDup (map (fun u => (s, u)) l).
Proof.
  induction 1 as [|x l Hx Hl IH]; simpl; constructor; [|assumption].
  intros Hin. apply in_map_iff in Hin. destruct Hin as (y & E & Hy).
  inversion E; subst. contradiction.
Qed.

Lemma sort_values_of_sorted (l : DataFrame value Z) :
  StronglySorted key_le (map snd l) -> sort_values l = l.
Proof.
  induction l as [|x l IH]; simpl; intros H; [reflexivity|].
  inversion H as [|? ? Hs Hx]; subst. rewrite (IH Hs).
  destruct l as [|y l]; [reflexivity|]. simpl.
  inversion Hx as [|? ? Hxy _]; subst.
  apply key_leb_le in Hxy. now rewrite Hxy.
Qed.

Lemma sorted_of_station_hours (s : Z) (ts : list Z) :
  StronglySorted Z.lt ts ->
  forall l : list (Row value Z),
    map key l = map (fun u => (s, u)) ts -> StronglySorted key_le l.
Proof.
  induction 1 as [|t ts Hs IH Ht]; intros l E.
  - destruct l; [constructor | discriminate].
  - destruct l as [|r l]; [discriminate|]. simpl in E.
    unfold key at 1 in E. injection E as E1 E2 El.
    constructor; [now apply IH|].
    apply Forall_forall. intros r' Hr'.
    assert (Hk : In (key r') (map (fun u => (s, u)) ts))
      by (rewrite <- El; now apply in_map).
    apply in_map_iff in Hk. destruct Hk as (u & Eu & Hu).
    rewrite Forall_forall in Ht. specialize (Ht u Hu).
    unfold key in Eu. injection Eu as Eu1 Eu2.
    unfold key_le. right. split; [congruence | lia].
Qed.

(** X8. On a cache file that is absent or holds at least one row, when
    the service has a complete record of every listed station, the
    file after the call holds, for each listed station, a row at every
    hour of the window; a second call on that file sends no request
    and leaves the file as it is. *)
Theorem complete_service_fills_every_gap (file : File value)
    (STATION_IDS : list Z) (START_DATE END_DATE : Z) :
  file <> Some [] ->
  (forall s, In s STATION_IDS -> answers_fully fetch END_DATE s) ->
  let o := update_and_save_station_data fetch file STATION_IDS
             START_DATE END_DATE in
  let file' := file_after file o in
  (forall s u,
      In s STATION_IDS -> window_hour START_DATE END_DATE u ->
      cached file' s u)
  /\ update_and_save_station_data fetch file' STATION_IDS
       START_DATE END_DATE = mkOutcome [] Untouched.
Proof.
  intros Hfile Hfull o file'.
  destruct (load_cache_loads _ file START_DATE Hfile) as [old El].
  destruct (fully_accumulated START_DATE END_DATE old STATION_IDS Hfull)
    as (news & Hn & Hk).
  assert (Hcov : forall s u,
             In s STATION_IDS -> window_hour START_DATE END_DATE u ->
             exists r,
               In r (to_csv old ++ to_csv news) /\ key r = (s, u)).
  { intros s u Hs Hu. apply in_date_range in Hu.
    destruct (covered_after_merge START_DATE END_DATE old STATION_IDS s u
                Hs Hu) as [(r & Hr & Ek)|Hin].
    - exists r. split; [apply in_or_app; now left | assumption].
    - rewrite <- Hk in Hin. apply in_map_iff in Hin.
      destruct Hin as (r & Ek & Hr). exists r.
      split; [apply in_or_app; now right | assumption]. }
  assert (Hcached : forall s u,
             In s STATION_IDS -> window_hour START_DATE END_DATE u ->
             cached file' s u).
  { intros s u Hs Hu. destruct (Hcov s u Hs Hu) as (r & Hr & Ek).
    unfold key in Ek. injection Ek as Es Et.
    subst file' o. unfold file_after.
    rewrite (status_run _ _ _ _ _ _ _ El).
    rewrite (accumulated_run _ _ _ _ _ _ _ El).
    destruct (flat_map _ STATION_IDS) as [|df dfs] eqn:Ea.
    - simpl in Hn. inversion Hn; subst news. simpl in Hr.
      rewrite app_nil_r in Hr. apply (in_load_cache _ _ _ _ _ El) in Hr.
      destruct Hr as (rows & Ef & Hin & _). exists rows, r. auto.
    - unfold combined_data_temp. rewrite Hn. simpl.
      eexists. exists r. split; [reflexivity|]. split; [|auto].
      rewrite to_csv_reset_index. unfold to_csv in *. rewrite <- map_app in Hr.
      eapply Permutation_in; [|exact Hr].
      apply Permutation_sym, Permutation_map, sort_values_perm. }
  split; [exact Hcached|].
  assert (Hfile' : file' <> Some []).
  { destruct (accumulated fetch file STATION_IDS START_DATE END_DATE)
      as [|df dfs] eqn:Ea.
    - subst file' o. unfold file_after.
      rewrite (status_run _ _ _ _ _ _ _ El), Ea. exact Hfile.
    - rewrite (accumulated_run _ _ _ _ _ _ _ El) in Ea.
      apply in_flat_map_head in Ea. destruct Ea as (s & Hs & Hdf).
      rewrite dataframes_alone in Hdf.
      destruct (missing_dates old _ s) as [|t rest] eqn:Em; [destruct Hdf|].
      assert (Hg : gap file START_DATE END_DATE s t)
        by (apply (in_missing_dates _ _ _ _ _ _ _ El); rewrite Em; now left).
      destruct (Hcached s t Hs (proj1 Hg)) as (rows & r & E & Hr & _).
      rewrite E. intros E'. inversion E'; subst rows. destruct Hr. }
  destruct (load_cache_loads _ file' START_DATE Hfile') as [old' El'].
  assert (Hnone : forall s, In s STATION_IDS ->
             missing_dates old'
               (date_range START_DATE (END_DATE - hour)) s = []).
  { intros s Hs.
    destruct (missing_dates _ _ s) as [|t rest] eqn:Em; [reflexivity|].
    assert (Hg : gap file' START_DATE END_DATE s t)
      by (apply (in_missing_dates _ _ _ _ _ _ _ El'); rewrite Em; now left).
    destruct Hg as [Hw Hc]. exfalso. apply Hc. now apply Hcached. }
  rewrite (outcome_eta (update_and_save_station_data _ _ _ _ _)).
  rewrite (requests_run _ _ _ _ _ _ _ El'), (status_run _ _ _ _ _ _ _ El'),
    (accumulated_run _ _ _ _ _ _ _ El').
  rewrite (flat_map_all_nil (fun s => calls _)).
  2:{ intros s Hs. rewrite calls_alone. now rewrite (Hnone s Hs). }
  rewrite (flat_map_all_nil (fun s => dataframes _)).
  2:{ intros s Hs. rewrite dataframes_alone. now rewrite (Hnone s Hs). }
  reflexivity.
Qed.

(** X9. When the keys of the cache file are pairwise distinct, no
    station is listed twice, the service has a complete record of every
    listed station, and each listed station's cached hours all lie
    before its missing hours (the missing hours are the tail of the
    window), a written file has at most one row per ([entityId],
    [time_utc]). *)
Theorem tail_gaps_give_distinct_keys (file : File value)
    (STATION_IDS : list Z) (START_DATE END_DATE : Z) (w : list (Row value Z)) :
  (forall s, In s STATION_IDS -> answers_fully fetch END_DATE s) ->
  NoDup STATION_IDS ->
  (forall rows, file = Some rows -> NoDup (map key rows)) ->
  (forall s t u,
      In s STATION_IDS -> gap file START_DATE END_DATE s t ->
      cached file s u -> u < t) ->
  status (update_and_save_station_data fetch file STATION_IDS
            START_DATE END_DATE) = Wrote w ->
  NoDup (map key w).
Proof.
  intros Hfull Hids Hfile Htail Hw.
  apply written_rows in Hw. destruct Hw as (old & new & El & Hn' & _ & ->).
  destruct (fully_accumulated START_DATE END_DATE old STATION_IDS Hfull)
    as (news & Hn & Hk).
  rewrite (accumulated_run _ _ _ _ _ _ _ El), Hn in Hn'.
  inversion Hn'; subst new.
  apply (Permutation_NoDup (l := map key (to_csv old ++ to_csv news))).
  { apply Permutation_map. unfold to_csv. rewrite <- map_app.
    apply Permutation_sym, Permutation_map, sort_values_perm. }
  rewrite map_app. apply NoDup_app.
  - destruct file as [rows|].
    + rewrite (to_csv_load_cache _ _ _ El). apply NoDup_map_filter.
      now apply Hfile.
    + inversion El. constructor.
  - rewrite Hk. apply NoDup_flat_map_tagged; [assumption| |].
    + intros s. destruct (missing_dates _ _ s); [constructor|].
      apply NoDup_map_pair, StronglySorted_lt_NoDup, date_range_increasing.
    + intros s x Hx. destruct (missing_dates _ _ s); [destruct Hx|].
      apply in_map_iff in Hx. destruct Hx as (u & <- & _). reflexivity.
  - intros [s u] Hold Hnew. rewrite Hk in Hnew.
    apply in_flat_map in Hnew. destruct Hnew as (s' & Hs' & Hin).
    destruct (missing_dates _ _ s') as [|t rest] eqn:Em; [destruct Hin|].
    apply in_map_iff in Hin. destruct Hin as (u' & E & Hu).
    inversion E; subst s' u'.
    assert (Hg : gap file START_DATE END_DATE s t)
      by (apply (in_missing_dates _ _ _ _ _ _ _ El); rewrite Em; now left).
    apply in_date_range in Hu. destruct Hu as (k & Hk0 & Eu & _).
    apply in_map_iff in Hold. destruct Hold as (r & Er & Hr).
    apply (in_load_cache _ _ _ _ _ El) in Hr.
    destruct Hr as (rows & Ef & Hin & _).
    unfold key in Er. injection Er as Es Et.
    assert (Hc : cached file s u) by (exists rows, r; auto).
    pose proof (Htail _ _ _ Hs' Hg Hc) as Hlt.
    unfold hour in Eu. lia.
Qed.

(** X10. Without a cache file and with a window of at least one hour,
    when the answer to the only station's request from [START_DATE]
    gives that station's rows at the hours of the window in order, the
    call sends that one request and writes exactly these rows: one row
    per hour of the window. *)
Theorem first_sync_writes_the_window (s START_DATE END_DATE : Z)
    (data : ApiData value) (df : DataFrame value (option string))
    (new : DataFrame value Z) :
  START_DATE + hour <= END_DATE ->
  fetch s START_DATE END_DATE = Json data ->
  create_dataframe_from_api_data data = Ok df ->
  astype_entityId df = Ok new ->
  map key (to_csv new)
  = map (fun u => (s, u)) (date_range START_DATE (END_DATE - hour)) ->
  update_and_save_station_data fetch None [s] START_DATE END_DATE
  = mkOutcome [(s, START_DATE, END_DATE)] (Wrote (to_csv new))
  /\ Z.of_nat (length (to_csv new)) = (END_DATE - START_DATE) / hour.
Proof.
  intros Hwin Hf Hc Ha Hk. split.
  - unfold update_and_save_station_data, station_loop. cbn [load_cache fold_left].
    unfold station_body. rewrite missing_dates_of_empty.
    destruct (date_range_head START_DATE (END_DATE - hour)) as [rest Er];
      [lia|].
    rewrite Er. rewrite Hf, (parsed_is_truthy _ _ Hc), Hc.
    cbn [dataframes calls app]. unfold combined_data_temp.
    cbn [concat]. rewrite app_nil_r, Ha. cbn [bind app].
    rewrite to_csv_reset_index, sort_values_of_sorted; [reflexivity|].
    apply (sorted_of_station_hours s (date_range START_DATE (END_DATE - hour)));
      [apply date_range_increasing | exact Hk].
  - assert (El : length (to_csv new)
                 = length (date_range START_DATE (END_DATE - hour))).
    { rewrite <- (length_map key (to_csv new)), Hk. apply length_map. }
    rewrite El. unfold date_range.
    assert (E : (START_DATE <=? END_DATE - hour) = true)
      by (apply Z.leb_le; lia).
    rewrite E, length_map, length_seq.
    replace (END_DATE - hour - START_DATE)
      with ((END_DATE - START_DATE) + (-1) * hour) by lia.
    rewrite Z.div_add by (unfold hour; lia).
    assert (1 <= (END_DATE - START_DATE) / hour).
    { apply Z.div_le_lower_bound; unfold hour in *; lia. }
    lia.
Qed.

End Coverage.

(** X11. With the window of the script, [END_DATE] the current hour
    and [START_DATE] one day before it, the routine looks for exactly
    24 hours, and each of them has fully elapsed at the current
    instant. *)
Theorem script_window_has_24_elapsed_hours (now : Z) :
  length (date_range (START_DATE_at now) (END_DATE_at now - hour)) = 24%nat
  /\ forall t,
      In t (date_range (START_DATE_at now) (END_DATE_at now - hour)) ->
      START_DATE_at now <= t /\ t + hour <= now.
Proof.
  unfold START_DATE_at, END_DATE_at. split.
  - unfold date_range.
    assert (E : (now / hour * hour - 24 * hour <=? now / hour * hour - hour)
                = true)
      by (apply Z.leb_le; unfold hour; lia).
    rewrite E, length_map, length_seq.
    replace (now / hour * hour - hour - (now / hour * hour - 24 * hour))
      with (23 * hour) by lia.
    rewrite Z.div_mul by (unfold hour; lia). reflexivity.
  - intros t Ht. apply in_date_range in Ht.
    destruct Ht as (k & Hk & -> & Hle).
    pose proof (Z.mul_div_le now hour eq_refl) as Hnow.
    unfold hour in *. lia.
Qed.

(** ** The complete service of the scenario *)

Lemma astype_entityId_uniform (c : string) (n : Z)
    (rows : DataFrame Z (option string)) :
  astype_int64 (Some c) = Ok n ->
  Forall (fun ir => entityId (snd ir) = Some c) rows ->
  astype_entityId rows
  = Ok (map (fun ir => (fst ir, mkRow n (time_utc (snd ir)) (cells (snd ir))))
          rows).
Proof.
  intros Hc. unfold astype_entityId.
  induction 1 as [|ir rows Hir _ IH]; [reflexivity|].
  cbn [mapM]. rewrite Hir, Hc. cbn [bind]. rewrite IH. reflexivity.
Qed.

Lemma full_service_is_complete (END_DATE : Z) :
  answers_fully full_service END_DATE 100.
Proof.
  intros t. unfold full_service. rewrite Z.eqb_refl.
  set (ts := date_range t (END_DATE - hour)).
  set (rows := map (fun tv : Z * Z =>
                      mkRow (Some "100"%string) (fst tv)
                        [("availableBikeNumber"%string, snd tv)])
                 (combine ts (map (fun t => 100 + t / hour) ts))).
  assert (Hparse : create_dataframe_from_api_data (body urn100 ts)
                   = Ok (labelled rows)).
  { unfold create_dataframe_from_api_data, body. simpl.
    rewrite length_map.
    destruct (Nat.eqb (length ts) 0) eqn:E0.
    - apply Nat.eqb_eq in E0. subst rows. destruct ts; [|discriminate].
      reflexivity.
    - rewrite Nat.eqb_refl. f_equal. subst rows. unfold labelled.
      rewrite length_map, length_combine, length_map, Nat.min_id. f_equal.
      apply (single_column_rows Z (Some "100"%string)
               "availableBikeNumber"%string ts
               (map (fun t => 100 + t / hour) ts) []).
      apply length_map. }
  eexists. eexists. eexists. split; [reflexivity|].
  split; [exact Hparse|]. split.
  - apply (astype_entityId_uniform "100"%string 100); [reflexivity|].
    apply Forall_forall. intros [i r] Hin. apply in_combine_r in Hin.
    subst rows. apply in_map_iff in Hin. destruct Hin as (tv & <- & _).
    reflexivity.
  - unfold to_csv. rewrite !map_map. cbn [snd key entityId time_utc].
    rewrite <- (map_map (fun ir : nat * Row Z (option string) => snd ir)
                  (fun r => (100, time_utc r))).
    change (map (fun ir : nat * Row Z (option string) => snd ir)
              (labelled rows)) with (map snd (labelled rows)).
    unfold labelled. rewrite combine_seq_snd. subst rows.
    rewrite map_map. cbn [time_utc].
    rewrite <- (map_map fst (fun u : Z => (100, u))). f_equal.
    clear Hparse. clearbody ts.
    induction ts as [|x ts IH]; cbn [map combine fst];
      [reflexivity | f_equal; exact IH].
Qed.

(** X8 in the 08:00-09:00 scenario. *)
Lemma complete_service_fills_every_gap_witness :
  let o := update_and_save_station_data full_service stale_cache [100]
             (clock 6) (clock 10) in
  let file' := file_after stale_cache o in
  (forall s u,
      In s [100] -> window_hour (clock 6) (clock 10) u -> cached file' s u)
  /\ update_and_save_station_data full_service file' [100]
       (clock 6) (clock 10) = mkOutcome [] Untouched.
Proof.
  apply (complete_service_fills_every_gap Z full_service stale_cache [100]
           (clock 6) (clock 10)).
  - discriminate.
  - intros s [<-|[]]. apply full_service_is_complete.
Defined.

(** X9 on a cache that holds 06:00 and 07:00 of station 100. *)
Lemma tail_gaps_give_distinct_keys_witness :
  let file := Some [reading 100 (clock 6) 1; reading 100 (clock 7) 2] in
  let w := [reading 100 (clock 6) 1; reading 100 (clock 7) 2;
            reading 100 (clock 8) 108; reading 100 (clock 9) 109] in
  status (update_and_save_station_data full_service file [100]
            (clock 6) (clock 10)) = Wrote w
  /\ NoDup (map key w).
Proof.
  intros file w.
  assert (Hw : status (update_and_save_station_data full_service file [100]
                         (clock 6) (clock 10)) = Wrote w)
    by (vm_compute; reflexivity).
  split; [exact Hw|].
  apply (tail_gaps_give_distinct_keys Z full_service file [100]
           (clock 6) (clock 10) w).
  - intros s [<-|[]]. apply full_service_is_complete.
  - repeat constructor; simpl; tauto.
  - intros rows E. inversion E; subst rows.
    repeat constructor; simpl; intuition discriminate.
  - intros s t u [<-|[]] [(k & Hk & Et & Hle) Hnc] (rows & r & E & Hr & Hs & Hu).
    inversion E; subst rows. unfold clock, hour in *.
    assert (Hk2 : 2 <= k).
    { destruct (Z.le_gt_cases 2 k) as [|Hlt]; [assumption|]. exfalso.
      apply Hnc. assert (Hk01 : k = 0 \/ k = 1) by lia.
      destruct Hk01 as [-> | ->].
      - exists [reading 100 (6 * 3600) 1; reading 100 (7 * 3600) 2],
          (reading 100 (6 * 3600) 1).
        split; [reflexivity|]. split; [now left|]. split; [reflexivity|].
        simpl. lia.
      - exists [reading 100 (6 * 3600) 1; reading 100 (7 * 3600) 2],
          (reading 100 (7 * 3600) 2).
        split; [reflexivity|]. split; [right; now left|].
        split; [reflexivity|]. simpl. lia. }
    destruct Hr as [<-|[<-|[]]]; simpl in Hu; lia.
  - exact Hw.
Defined.

(** X10 for station 100 and the window from 06:00 to 10:00. *)
Lemma first_sync_writes_the_window_witness :
  let new := labelled [reading 100 (clock 6) 106; reading 100 (clock 7) 107;
                       reading 100 (clock 8) 108; reading 100 (clock 9) 109] in
  update_and_save_station_data full_service None [100] (clock 6) (clock 10)
  = mkOutcome [(100, clock 6, clock 10)] (Wrote (to_csv new))
  /\ Z.of_nat (length (to_csv new)) = (clock 10 - clock 6) / hour.
Proof.
  intros new.
  apply (first_sync_writes_the_window Z full_service 100 (clock 6) (clock 10)
           (body urn100 (date_range (clock 6) (clock 10 - hour)))
           (labelled
              (map (fun t => mkRow (Some "100"%string) t
                               [("availableBikeNumber"%string, 100 + t / hour)])
                 (date_range (clock 6) (clock 10 - hour))))
           new).
  - vm_compute. discriminate.
  - reflexivity.
  - vm_compute. reflexivity.
  - vm_compute. reflexivity.
  - vm_compute. reflexivity.
Defined.

(** * Properties of the forecaster's bookkeeping *)

Lemma fold_min_spec (l : list Z) (x : Z) :
  In (fold_left Z.min l x) (x :: l)
  /\ forall y, In y (x :: l) -> fold_left Z.min l x <= y.
Proof.
  revert x; induction l as [|a l IH]; intros x; simpl.
  - split; [now left | intros y [<-|[]]; lia].
  - destruct (IH (Z.min x a)) as [Hin Hle]. split.
    + destruct Hin as [E|Hin]; [|right; right; exact Hin].
      rewrite <- E. destruct (Z.min_spec x a) as [[_ ->]|[_ ->]];
        [now left | right; now left].
    + intros y Hy.
      assert (Hm : fold_left Z.min l (Z.min x a) <= Z.min x a)
        by (apply Hle; now left).
      destruct Hy as [<-|[<-|Hy]]; [lia | lia | apply Hle; now right].
Qed.

Lemma fold_max_spec (l : list Z) (x : Z) :
  In (fold_left Z.max l x) (x :: l)
  /\ forall y, In y (x :: l) -> y <= fold_left Z.max l x.
Proof.
  revert x; induction l as [|a l IH]; intros x; simpl.
  - split; [now left | intros y [<-|[]]; lia].
  - destruct (IH (Z.max x a)) as [Hin Hle]. split.
    + destruct Hin as [E|Hin]; [|right; right; exact Hin].
      rewrite <- E. destruct (Z.max_spec x a) as [[_ ->]|[_ ->]];
        [right; now left | now left].
    + intros y Hy.
      assert (Hm : Z.max x a <= fold_left Z.max l (Z.max x a))
        by (apply Hle; now left).
      destruct Hy as [<-|[<-|Hy]]; [lia | lia | apply Hle; now right].
Qed.

Lemma later_min_max (tps tds : list Z) :
  later (series_min tps) (series_max tds) = true
  <-> tps <> [] /\ tds <> []
      /\ forall a b, In a tds -> In b tps -> a < b.
Proof.
  unfold later, series_min, series_max.
  destruct tps as [|p tps].
  { split; [discriminate | intros [H _]; now elim H]. }
  destruct tds as [|d tds].
  { split; [discriminate | intros [_ [H _]]; now elim H]. }
  destruct (fold_min_spec tps p) as [Hmin_in Hmin].
  destruct (fold_max_spec tds d) as [Hmax_in Hmax].
  rewrite Z.ltb_lt. split.
  - intros H. split; [discriminate|]. split; [discriminate|].
    intros a b Ha Hb. specialize (Hmax a Ha). specialize (Hmin b Hb). lia.
  - intros (_ & _ & H). now apply H.
Qed.

Lemma unique_acc_In (l seen : list Z) (x : Z) :
  In x (unique_acc seen l) <-> In x l /\ ~ In x seen.
Proof.
  revert seen; induction l as [|a l IH]; intros seen; simpl.
  - tauto.
  - destruct (existsb (Z.eqb a) seen) eqn:E.
    + apply existsb_exists in E. destruct E as (y & Hy & Ey).
      apply Z.eqb_eq in Ey. subst y. rewrite IH. split.
      * tauto.
      * intros [[->|H] Hn]; [contradiction | tauto].
    + assert (Ha : ~ In a seen).
      { intros Hin. apply not_true_iff_false in E. apply E.
        apply existsb_exists. exists a. split; [assumption|].
        apply Z.eqb_refl. }
      simpl. rewrite IH. simpl. split.
      * intros [<-|[H Hn]]; [tauto|]. split; [tauto|]. tauto.
      * intros [[<-|H] Hn]; [now left|].
        destruct (Z.eq_dec a x) as [->|Hne]; [now left|]. right.
        split; [assumption|]. intros [E'|H']; [now apply Hne | now apply Hn].
Qed.

Lemma unique_acc_NoDup (l seen : list Z) : NoDup (unique_acc seen l).
Proof.
  revert seen; induction l as [|a l IH]; intros seen; simpl; [constructor|].
  destruct (existsb (Z.eqb a) seen); [apply IH|].
  constructor; [|apply IH].
  intros H. apply unique_acc_In in H. destruct H as [_ H]. apply H. now left.
Qed.

Section ForecasterProperties.

Variable value : Type.
Variable predicted : Type.
Variable forecast : list (Row value Z) -> option (list predicted).
Variable start_date : nat -> Z.

Local Abbreviation run_predictions :=
  (update_and_save_predictions forecast start_date).

Lemma predict_stations_blocks (rows : list (Row value Z)) (l : list Z) :
  forall (k : nat) (dfs : list (list (Prediction predicted))),
    predict_stations forecast start_date rows k l = Some dfs ->
    Forall2
      (fun ks df =>
         exists numbers,
           forecast (filter (fun r => entityId r =? snd ks) rows)
           = Some numbers
           /\ df = temp_df (snd ks) (start_date (fst ks)) numbers)
      (combine (seq k (length l)) l) dfs.
Proof.
  induction l as [|s l IH]; intros k dfs; simpl.
  - intros H; inversion H; constructor.
  - destruct (forecast (filter (fun r => entityId r =? s) rows))
      as [numbers|] eqn:Ef; [|discriminate].
    destruct (predict_stations forecast start_date rows (S k) l)
      as [dfs'|] eqn:Ep; [|discriminate].
    intros H; inversion H; subst dfs. constructor; [|now apply IH].
    exists numbers. split; [assumption | reflexivity].
Qed.

Lemma make_predictions_cases (rows : list (Row value Z))
    (out : list (Prediction predicted)) :
  match predict_stations forecast start_date rows 0 (unique (map entityId rows)) with
  | None => Failed
  | Some [] => Failed
  | Some (df :: dfs) => Saved (concat (df :: dfs))
  end = Saved out ->
  exists dfs,
    predict_stations forecast start_date rows 0 (unique (map entityId rows))
    = Some dfs
    /\ out = concat dfs.
Proof.
  destruct (predict_stations _ _ _ _ _) as [[|df dfs]|]; try discriminate.
  intros H; inversion H. eexists. split; reflexivity.
Qed.

Lemma saved_from_data (data_file : option (list (Row value Z)))
    (predictions_file : option (list (Prediction predicted)))
    (out : list (Prediction predicted)) :
  run_predictions data_file predictions_file = Saved out ->
  exists rows dfs,
    data_file = Some rows
    /\ predict_stations forecast start_date rows 0 (unique (map entityId rows))
       = Some dfs
    /\ out = concat dfs.
Proof.
  unfold update_and_save_predictions.
  destruct data_file as [rows|].
  - intros H.
    assert (H' : match predict_stations forecast start_date rows 0
                         (unique (map entityId rows)) with
                 | None => Failed
                 | Some [] => Failed
                 | Some (df :: dfs) => Saved (concat (df :: dfs))
                 end = Saved out).
    { destruct predictions_file as [preds|]; [|exact H].
      destruct (later _ _); [discriminate | exact H]. }
    destruct (make_predictions_cases rows out H') as (dfs & Hp & ->).
    exists rows, dfs. auto.
  - destruct predictions_file; discriminate.
Qed.

(** X12. The call returns without predicting (line 100) exactly when
    both files exist, both have rows, and every prediction in the
    predictions file is for an instant later than every row of the data
    file; then the predictions file stays as it is. *)
Theorem predictions_up_to_date_iff (data_file : option (list (Row value Z)))
    (predictions_file : option (list (Prediction predicted))) :
  (run_predictions data_file predictions_file = UpToDate
   <-> exists rows preds,
       data_file = Some rows /\ predictions_file = Some preds
       /\ rows <> [] /\ preds <> []
       /\ forall r p,
           In r rows -> In p preds ->
           time_utc r < prediction_time_utc p)
  /\ (run_predictions data_file predictions_file = UpToDate ->
      predictions_after predictions_file
        (run_predictions data_file predictions_file) = predictions_file).
Proof.
  split; [|intros ->; reflexivity].
  unfold update_and_save_predictions.
  destruct predictions_file as [preds|].
  - destruct data_file as [rows|].
    + destruct (later (series_min (map prediction_time_utc preds))
                  (series_max (map time_utc rows))) eqn:E.
      * split; [|reflexivity]. intros _. apply later_min_max in E.
        destruct E as (Hp & Hr & Hlt). exists rows, preds.
        split; [reflexivity|]. split; [reflexivity|].
        split; [intros ->; now apply Hr|].
        split; [intros ->; now apply Hp|].
        intros r p Hr' Hp'. apply Hlt; now apply in_map.
      * split.
        -- destruct (predict_stations _ _ _ _ _) as [[|df dfs]|]; discriminate.
        -- intros (rows' & preds' & Er & Ep & Hr & Hp & Hlt).
           inversion Er; inversion Ep; subst rows' preds'.
           apply not_true_iff_false in E. exfalso. apply E.
           apply later_min_max.
           split; [destruct preds; [now elim Hp | discriminate]|].
           split; [destruct rows; [now elim Hr | discriminate]|].
           intros a b Ha Hb. apply in_map_iff in Ha. apply in_map_iff in Hb.
           destruct Ha as (r & <- & Hr'). destruct Hb as (p & <- & Hp').
           now apply Hlt.
    + split; [discriminate|]. intros (rows & preds' & E & _). discriminate.
  - split.
    + destruct data_file as [rows|]; [|discriminate].
      destruct (predict_stations _ _ _ _ _) as [[|df dfs]|]; discriminate.
    + intros (rows & preds & _ & E & _). discriminate.
Qed.

(** X13. Without a data file the call raises when a predictions file
    exists (the comparison of line 96 reads a name that was never
    bound), and otherwise ends without writing; it raises in no other
    case.  A data file without rows never leads to a write. *)
Theorem predictions_without_data
    (predictions_file : option (list (Prediction predicted))) :
  (forall data_file,
      run_predictions data_file predictions_file = UnboundLocal
      <-> data_file = None /\ predictions_file <> None)
  /\ run_predictions None None = Failed
  /\ run_predictions (Some []) predictions_file = Failed.
Proof.
  unfold update_and_save_predictions. split; [|split].
  - intros data_file. destruct predictions_file as [preds|].
    + destruct data_file as [rows|].
      * split; [|intros [E _]; discriminate].
        destruct (later _ _); [discriminate|].
        destruct (predict_stations _ _ _ _ _) as [[|df dfs]|]; discriminate.
      * split; [|reflexivity]. intros _. split; [reflexivity | discriminate].
    + split; [|intros [_ H]; now elim H].
      destruct data_file as [rows|]; [|discriminate].
      destruct (predict_stations _ _ _ _ _) as [[|df dfs]|]; discriminate.
  - reflexivity.
  - destruct predictions_file as [preds|]; [|reflexivity].
    simpl. destruct (series_min _); reflexivity.
Qed.

(** X14. The predictions are written all together or not at all: when
    the forecast for the rows of one station of the data file raises,
    the call writes nothing, also for the stations whose forecast
    succeeded. *)
Theorem one_failed_forecast_blocks_the_write (rows : list (Row value Z))
    (predictions_file : option (list (Prediction predicted)))
    (r : Row value Z) :
  In r rows ->
  forecast (filter (fun r' => entityId r' =? entityId r) rows) = None ->
  (forall out, run_predictions (Some rows) predictions_file <> Saved out)
  /\ predictions_after predictions_file
       (run_predictions (Some rows) predictions_file) = predictions_file.
Proof.
  intros Hr Hf.
  assert (Hno : forall out,
             run_predictions (Some rows) predictions_file <> Saved out).
  { intros out H. apply saved_from_data in H.
    destruct H as (rows' & dfs & E & Hp & _). inversion E; subst rows'.
    apply predict_stations_blocks in Hp.
    assert (Hs : In (entityId r) (unique (map entityId rows))).
    { apply unique_acc_In. split; [now apply in_map | intros []]. }
    assert (Hall : forall ks, In ks (combine (seq 0 (length (unique (map entityId rows))))
                                       (unique (map entityId rows))) ->
                   forecast (filter (fun r' => entityId r' =? snd ks) rows) <> None).
    { clear -Hp. induction Hp as [|ks df l dfs (numbers & Hn & _) _ IH];
        intros ks' Hin; [destruct Hin|].
      destruct Hin as [<-|Hin]; [congruence | now apply IH]. }
    rewrite <- (combine_seq_snd (unique (map entityId rows)) 0) in Hs.
    apply in_map_iff in Hs. destruct Hs as (ks & Es & Hks).
    apply (Hall ks Hks). now rewrite Es. }
  split; [exact Hno|].
  destruct (run_predictions (Some rows) predictions_file) eqn:E;
    try reflexivity.
  exfalso. exact (Hno _ eq_refl).
Qed.

End ForecasterProperties.

Section SavedPredictions.

Variable value : Type.
Variable predicted : Type.
Variable forecast : list (Row value Z) -> option (list predicted).
Variable start_date : nat -> Z.
Variable now : Z.
Hypothesis same_hour : forall k, start_date k = now.

Local Abbreviation pkey :=
  (fun p : Prediction predicted =>
     (prediction_entityId p, prediction_time_utc p)).

(** What the loop leaves for the station [snd ks] in iteration
    [fst ks]. *)
Local Abbreviation block_of rows :=
  (fun (ks : nat * Z) (df : list (Prediction predicted)) =>
     exists numbers,
       forecast (filter (fun r : Row value Z => entityId r =? snd ks) rows)
       = Some numbers
       /\ df = temp_df (snd ks) (start_date (fst ks)) numbers).

Lemma in_temp_df (s start : Z) (numbers : list predicted)
    (p : Prediction predicted) :
  In p (temp_df s start numbers) ->
  prediction_entityId p = s /\ start <= prediction_time_utc p.
Proof.
  unfold temp_df. intros H. apply in_map_iff in H.
  destruct H as ([i v] & <- & _). simpl. unfold hour. split; [reflexivity|lia].
Qed.

Lemma nth_in_labels {A : Type} (l : list A) :
  forall (a i : nat) (v : A),
    nth_error l i = Some v -> In ((a + i)%nat, v) (combine (seq a (length l)) l).
Proof.
  induction l as [|x l IH]; intros a i v; destruct i; simpl; try discriminate.
  - intros H; inversion H. left. now rewrite Nat.add_0_r.
  - intros H. right. rewrite <- Nat.add_succ_comm. now apply IH.
Qed.

Lemma temp_df_keys_NoDup (s start : Z) (numbers : list predicted) :
  NoDup (map pkey (temp_df s start numbers)).
Proof.
  unfold temp_df. generalize 0%nat as a.
  induction numbers as [|v numbers IH]; intros a; simpl; constructor.
  - intros H. apply in_map_iff in H. destruct H as (p & Ep & Hp).
    apply in_map_iff in Hp. destruct Hp as ([i v'] & <- & Hiv).
    apply in_combine_l in Hiv. apply in_seq in Hiv.
    simpl in Ep. injection Ep as Ep. unfold hour in Ep. lia.
  - apply IH.
Qed.

Lemma blocks_stations (rows : list (Row value Z)) (l : list (nat * Z))
    (dfs : list (list (Prediction predicted))) :
  Forall2 (block_of rows) l dfs ->
  forall p, In p (concat dfs) -> In (prediction_entityId p) (map snd l).
Proof.
  induction 1 as [|ks df l dfs (numbers & _ & ->) _ IH]; intros p Hp;
    [destruct Hp|].
  simpl in Hp. apply in_app_or in Hp. destruct Hp as [Hp|Hp].
  - apply in_temp_df in Hp. left. symmetry. tauto.
  - right. now apply IH.
Qed.

Lemma blocks_keys_NoDup (rows : list (Row value Z)) (l : list (nat * Z))
    (dfs : list (list (Prediction predicted))) :
  Forall2 (block_of rows) l dfs ->
  NoDup (map snd l) -> NoDup (map pkey (concat dfs)).
Proof.
  induction 1 as [|ks df l dfs Hb Hrest IH]; intros Hnd; [constructor|].
  simpl in Hnd. inversion Hnd as [|? ? Hnot Hnd']; subst.
  simpl. rewrite map_app. apply NoDup_app.
  - destruct Hb as (numbers & _ & ->). apply temp_df_keys_NoDup.
  - now apply IH.
  - intros x Hx Hx'. apply in_map_iff in Hx. apply in_map_iff in Hx'.
    destruct Hx as (p & Ep & Hp). destruct Hx' as (p' & Ep' & Hp').
    destruct Hb as (numbers & _ & ->). apply in_temp_df in Hp.
    apply (blocks_stations rows l dfs Hrest) in Hp'.
    apply Hnot. rewrite <- Ep' in Ep. injection Ep as E1 _.
    destruct Hp as [Hp _]. now rewrite <- Hp, E1.
Qed.

(** X15. When the predictions are all made within one hour [now], a
    written predictions file has rows only for stations of the data
    file and for instants from [now] on, it holds for every station of
    the data file each number of its forecast, the [i]-th at [now + i]
    hours, and no two of its rows share station and instant, also when
    the data file has several rows for one station and hour. *)
Theorem saved_predictions_shape (data_file : option (list (Row value Z)))
    (predictions_file : option (list (Prediction predicted)))
    (out : list (Prediction predicted)) :
  update_and_save_predictions forecast start_date data_file predictions_file
  = Saved out ->
  exists rows,
    data_file = Some rows
    /\ (forall p,
           In p out ->
           In (prediction_entityId p) (map entityId rows)
           /\ now <= prediction_time_utc p)
    /\ (forall r,
           In r rows ->
           exists numbers,
             forecast (filter (fun r' => entityId r' =? entityId r) rows)
             = Some numbers
             /\ forall i v,
                 nth_error numbers i = Some v ->
                 In (mkPrediction (entityId r) (now + Z.of_nat i * hour) v) out)
    /\ NoDup (map pkey out).
Proof.
  intros H. apply saved_from_data in H.
  destruct H as (rows & dfs & -> & Hp & ->).
  apply predict_stations_blocks in Hp.
  set (U := unique (map entityId rows)) in *.
  assert (HU : map snd (combine (seq 0 (length U)) U) = U)
    by apply combine_seq_snd.
  exists rows. split; [reflexivity|]. split; [|split].
  - intros p Hin. split.
    + pose proof (blocks_stations rows _ _ Hp p Hin) as Hs.
      rewrite HU in Hs. apply unique_acc_In in Hs. tauto.
    + clear HU. induction Hp as [|ks df l dfs (numbers & _ & ->) _ IH];
        [destruct Hin|].
      simpl in Hin. apply in_app_or in Hin. destruct Hin as [Hin|Hin];
        [|now apply IH].
      apply in_temp_df in Hin. rewrite same_hour in Hin. tauto.
  - intros r Hr.
    assert (Hs : In (entityId r) U)
      by (apply unique_acc_In; split; [now apply in_map | intros []]).
    rewrite <- HU in Hs. apply in_map_iff in Hs.
    destruct Hs as (ks & Es & Hks). clear HU.
    induction Hp as [|ks' df l dfs Hb _ IH]; [destruct Hks|].
    destruct Hks as [->|Hks].
    + destruct Hb as (numbers & Hn & ->). exists numbers.
      rewrite <- Es. split; [exact Hn|]. intros i v Hi.
      simpl. apply in_or_app. left. unfold temp_df. rewrite same_hour.
      apply (nth_in_labels numbers 0) in Hi. simpl in Hi.
      apply in_map_iff. exists (i, v). split; [reflexivity | exact Hi].
    + destruct (IH Hks) as (numbers & Hn & Hall). exists numbers.
      split; [exact Hn|]. intros i v Hi. simpl. apply in_or_app. right.
      now apply Hall.
  - apply (blocks_keys_NoDup rows _ _ Hp). rewrite HU.
    apply unique_acc_NoDup.
Qed.

End SavedPredictions.

(** X14 on a data file with the stations 100 and 200, when the forecast
    of station 200 raises. *)
Lemma one_failed_forecast_blocks_the_write_witness :
  let forecast := fun rows : list (Row Z Z) =>
                    match rows with
                    | [] => None
                    | r :: _ => if entityId r =? 200 then None else Some [7; 8]
                    end in
  let rows := [reading 100 (clock 9) 1; reading 200 (clock 9) 2] in
  (forall out,
      update_and_save_predictions forecast (fun _ => clock 10) (Some rows) None
      <> Saved out)
  /\ predictions_after None
       (update_and_save_predictions forecast (fun _ => clock 10)
          (Some rows) None) = None.
Proof.
  intros forecast rows.
  apply (one_failed_forecast_blocks_the_write Z Z forecast (fun _ => clock 10)
           rows None (reading 200 (clock 9) 2)).
  - right. left. reflexivity.
  - reflexivity.
Defined.

(** X15 on a data file with two rows of station 100 at 09:00 and one
    row of station 200. *)
Lemma saved_predictions_shape_witness :
  let forecast := fun rows : list (Row Z Z) => Some [7; 8] in
  let rows := [reading 100 (clock 9) 1; reading 100 (clock 9) 2;
               reading 200 (clock 9) 3] in
  let out := [mkPrediction 100 (clock 10) 7; mkPrediction 100 (clock 11) 8;
              mkPrediction 200 (clock 10) 7; mkPrediction 200 (clock 11) 8] in
  update_and_save_predictions forecast (fun _ => clock 10) (Some rows) None
  = Saved out
  /\ exists rows',
      Some rows = Some rows'
      /\ (forall p,
             In p out ->
             In (prediction_entityId p) (map entityId rows')
             /\ clock 10 <= prediction_time_utc p)
      /\ (forall r,
             In r rows' ->
             exists numbers,
               forecast (filter (fun r' => entityId r' =? entityId r) rows')
               = Some numbers
               /\ forall i v,
                   nth_error numbers i = Some v ->
                   In (mkPrediction (entityId r)
                         (clock 10 + Z.of_nat i * hour) v) out)
      /\ NoDup (map (fun p : Prediction Z =>
                       (prediction_entityId p, prediction_time_utc p)) out).
Proof.
  intros forecast rows out.
  assert (H : update_and_save_predictions forecast (fun _ => clock 10)
                (Some rows) None = Saved out) by reflexivity.
  split; [exact H|].
  exact (saved_predictions_shape Z Z forecast (fun _ => clock 10) (clock 10)
           (fun _ => eq_refl) (Some rows) None out H).
Defined.

(** * Columns of a parsed frame, and the independence of the stations *)

Section Columns.

Variable value : Type.

Lemma dict_set_keys_In (d : list (string * list value)) (k x : string)
    (v : list value) :
  In x (map fst (dict_set value d k v)) -> x = k \/ In x (map fst d).
Proof.
  induction d as [|[k' v'] d IH]; simpl.
  - intros [<-|[]]. now left.
  - destruct (String.eqb k' k); simpl.
    + intros [<-|H]; right; [now left | now right].
    + intros [<-|H]; [right; now left|].
      destruct (IH H) as [->|H']; [now left | right; now right].
Qed.

Lemma dict_set_keys_NoDup (d : list (string * list value)) (k : string)
    (v : list value) :
  NoDup (map fst d) -> NoDup (map fst (dict_set value d k v)).
Proof.
  induction d as [|[k' v'] d IH]; simpl; intros H.
  - repeat constructor. intros [].
  - inversion H as [|? ? Hn Hd]; subst.
    destruct (String.eqb k' k) eqn:E; simpl.
    + constructor; assumption.
    + constructor; [|now apply IH].
      intros Hin. apply dict_set_keys_In in Hin.
      destruct Hin as [->|Hin]; [|contradiction].
      now rewrite String.eqb_refl in E.
Qed.

Lemma attribute_dict_keys_NoDup (attrs : list (Attribute value)) :
  forall acc d,
    NoDup (map fst acc) -> attribute_dict value acc attrs = Ok d ->
    NoDup (map fst d).
Proof.
  induction attrs as [|a attrs IH]; intros acc d Hacc; simpl.
  - intros H; inversion H; now subst.
  - destruct (attrName value a) as [name|]; [|discriminate].
    apply IH. now apply dict_set_keys_NoDup.
Qed.

Lemma row_cells_keys (d : list (string * list value)) (i : nat) :
  NoDup (map fst d) ->
  NoDup (map fst (row_cells value d i))
  /\ forall x, In x (map fst (row_cells value d i)) -> In x (map fst d).
Proof.
  unfold row_cells. induction d as [|[k vs] d IH]; simpl; intros H.
  - split; [constructor | tauto].
  - inversion H as [|? ? Hn Hd]; subst. destruct (IH Hd) as [Hnd Hsub].
    destruct (nth_error vs i) as [v|]; simpl.
    + split.
      * constructor; [|assumption]. intros Hin. apply Hn. now apply Hsub.
      * intros x [<-|Hx]; [now left | right; now apply Hsub].
    + split; [assumption|]. intros x Hx. right. now apply Hsub.
Qed.

(** X16. No row of a parsed frame has two cells for one column name,
    also when 'attributes' lists an attribute name more than once. *)
Theorem parsed_rows_have_distinct_columns (data : ApiData value)
    (df : DataFrame value (option string)) (i : nat)
    (r : Row value (option string)) :
  create_dataframe_from_api_data data = Ok df ->
  In (i, r) df ->
  NoDup (map fst (cells r)).
Proof.
  unfold create_dataframe_from_api_data.
  destruct (d_index data) as [ts|]; [|discriminate].
  destruct (d_entityId data) as [id|]; [|discriminate].
  destruct (d_attributes data) as [attrs|]; [|discriminate].
  destruct (attribute_dict value [] attrs) as [cols|e] eqn:Ea; [|discriminate].
  simpl. destruct (frame_length value cols) as [n|e]; [|discriminate].
  simpl.
  assert (Hcols : NoDup (map fst cols)).
  { apply (attribute_dict_keys_NoDup attrs [] cols); [constructor | exact Ea]. }
  destruct (Nat.eqb n 0).
  - intros H Hin; inversion H; subst df. apply in_combine_r in Hin.
    apply in_map_iff in Hin. destruct Hin as (t & <- & _). constructor.
  - destruct (Nat.eqb (length ts) n); [|discriminate].
    intros H Hin; inversion H; subst df. apply in_combine_r in Hin.
    apply in_map_iff in Hin. destruct Hin as (it & <- & _). simpl.
    apply (row_cells_keys _ (fst it) (NoDup_map_filter fst _ cols Hcols)).
Qed.

Variable fetch : Z -> Z -> Z -> Response value.

(** X17. The iterations of the loop do not see each other: the requests
    sent and the frames gathered for a list of stations are those for
    its first part followed by those for the rest.  A station listed
    twice is therefore requested twice, with the same request. *)
Theorem stations_are_processed_independently (file : File value)
    (l1 l2 : list Z) (START_DATE END_DATE : Z) :
  requests (update_and_save_station_data fetch file (l1 ++ l2)
              START_DATE END_DATE)
  = requests (update_and_save_station_data fetch file l1
                START_DATE END_DATE)
    ++ requests (update_and_save_station_data fetch file l2
                   START_DATE END_DATE)
  /\ accumulated fetch file (l1 ++ l2) START_DATE END_DATE
     = accumulated fetch file l1 START_DATE END_DATE
       ++ accumulated fetch file l2 START_DATE END_DATE.
Proof.
  destruct (load_cache file START_DATE) as [old|e] eqn:El.
  - rewrite !(requests_run _ _ _ _ _ _ _ El), !(accumulated_run _ _ _ _ _ _ _ El).
    split; apply flat_map_app.
  - rewrite !(run_load_raises _ _ _ _ _ _ _ El),
      !(accumulated_load_raises _ _ _ _ _ _ _ El).
    split; reflexivity.
Qed.

End Columns.

(** X16 on a body that lists 'availableBikeNumber' twice. *)
Lemma parsed_rows_have_distinct_columns_witness :
  let data :=
    mkApiData (Some [clock 6]) (Some urn100)
      (Some [mkAttribute (Some "availableBikeNumber"%string) (Some [1]);
             mkAttribute (Some "availableBikeNumber"%string) (Some [2])])
      [] in
  create_dataframe_from_api_data data
  = Ok [(0%nat, mkRow (Some "100"%string) (clock 6)
                  [("availableBikeNumber"%string, 2)])]
  /\ NoDup (map fst [("availableBikeNumber"%string, 2)]).
Proof.
  intros data. split; [reflexivity|].
  apply (parsed_rows_have_distinct_columns Z data
           [(0%nat, mkRow (Some "100"%string) (clock 6)
                      [("availableBikeNumber"%string, 2)])]
           0%nat
           (mkRow (Some "100"%string) (clock 6)
              [("availableBikeNumber"%string, 2)])).
  - reflexivity.
  - left. reflexivity.
Defined.

(** X5 on a body whose only attribute has no 'attrName'. *)
Lemma parser_exceptions_witness :
  let data := mkApiData (Some [clock 6]) (Some urn100)
                (Some [mkAttribute None (Some [1])]) [] in
  create_dataframe_from_api_data data = Raise KeyError
  /\ (KeyError = ValueError
      \/ (KeyError = KeyError
          /\ d_index data <> None /\ d_entityId data <> None
          /\ exists attrs,
              d_attributes data = Some attrs
              /\ Exists (fun a => attrName Z a = None) attrs)).
Proof.
  intros data. split; [reflexivity|].
  apply (proj1 (parser_exceptions Z data) KeyError). reflexivity.
Defined.

(** X7 on the answer whose entity id the pattern does not match, and
    on the file without rows. *)
Lemma run_raises_at_the_load_or_in_the_cast_witness :
  let o := update_and_save_station_data foreign_service None [100]
             (clock 6) (clock 10) in
  let dfs := accumulated foreign_service None [100] (clock 6) (clock 10) in
  status o = Raised ValueError
  /\ (file_after None o = None
      /\ ((ValueError = TypeError /\ None = Some (@nil (Row Z Z))
           /\ requests o = [])
          \/ ((ValueError = ValueError \/ ValueError = OverflowError)
              /\ None <> Some (@nil (Row Z Z))
              /\ exists df ir,
                  In df dfs /\ In ir df
                  /\ astype_int64 (entityId (snd ir)) = Raise ValueError)))
  /\ update_and_save_station_data foreign_service (Some []) [100]
       (clock 6) (clock 10) = mkOutcome [] (Raised TypeError).
Proof.
  intros o dfs.
  assert (H : status o = Raised ValueError) by (vm_compute; reflexivity).
  split; [exact H|]. split.
  - exact (proj1 (run_raises_at_the_load_or_in_the_cast Z foreign_service
                    None [100] (clock 6) (clock 10)) ValueError H).
  - exact (proj1 (proj2 (run_raises_at_the_load_or_in_the_cast Z
                           foreign_service (Some []) [100]
                           (clock 6) (clock 10))) eq_refl).
Defined.

(** X12 on a data file that ends at 09:00 and predictions from 10:00. *)
Lemma predictions_up_to_date_iff_witness :
  update_and_save_predictions (fun _ : list (Row Z Z) => Some [7; 8])
    (fun _ => clock 10)
    (Some [reading 100 (clock 8) 1; reading 100 (clock 9) 2])
    (Some [mkPrediction 100 (clock 10) 7; mkPrediction 100 (clock 11) 8])
  = UpToDate.
Proof.
  apply (proj1 (predictions_up_to_date_iff Z Z
                  (fun _ : list (Row Z Z) => Some [7; 8]) (fun _ => clock 10)
                  (Some [reading 100 (clock 8) 1; reading 100 (clock 9) 2])
                  (Some [mkPrediction 100 (clock 10) 7;
                         mkPrediction 100 (clock 11) 8]))).
  eexists. eexists. split; [reflexivity|]. split; [reflexivity|].
  split; [discriminate|]. split; [discriminate|].
  intros r p [<-|[<-|[]]] [<-|[<-|[]]]; vm_compute; reflexivity.
Defined.
